(** * mezzanine.conf: the settings registry and the per-request resolver

    A shallow embedding of [mezzanine/conf/__init__.py]: the module-level
    [registry], [register_setting], and the [Settings] object with its
    per-request cache of editable settings ([_editable_caches], [_load],
    [_get_editable], [clear_cache], [__getattr__]).

    Conventions of the embedding:
    - a Python [str] is a [string] holding the text's UTF-8 encoding, so
      that [bytes(val, encoding='utf8')] is the list of its bytes;
    - a Python [dict] keyed by names is a [gmap string _];
    - a call that may raise returns an [outcome]; exception messages are
      dropped, only the exception class is kept;
    - the database table of [Setting] rows is a list of rows, in the order
      [Setting.objects.all()] yields them, and every query is logged. *)

From Stdlib Require Import ZArith String Ascii List Bool Lia.
From stdpp Require Import base option list strings gmap.

Local Open Scope string_scope.
Local Open Scope list_scope.
Local Open Scope Z_scope.

(** ** Python values, types and exceptions *)

(** The values a setting's default (and a converted database value) ranges
    over.  [VLazy] is a lazily translated string, an instance of a subclass
    of [django.utils.functional.Promise]. *)
#[warnings="-register-all"]
Inductive value : Type :=
| VNone
| VBool (b : bool)
| VInt (n : Z)
| VStr (s : string)
| VLazy (msgid : string)
| VBytes (bs : list Byte.byte)
| VList (items : list value)
| VTuple (items : list value).

(** Runtime classes.  [T_proxy] is the concrete class of a lazy string,
    [T_Promise] its base class. *)
Inductive pytype : Type :=
| T_NoneType | T_bool | T_int | T_str | T_bytes | T_list | T_tuple
| T_proxy | T_Promise.

#[global] Instance pytype_eq_dec : EqDecision pytype.
Proof. solve_decision. Defined.

(** [type(v)] *)
Definition type_of (v : value) : pytype :=
  match v with
  | VNone => T_NoneType
  | VBool _ => T_bool
  | VInt _ => T_int
  | VStr _ => T_str
  | VLazy _ => T_proxy
  | VBytes _ => T_bytes
  | VList _ => T_list
  | VTuple _ => T_tuple
  end.

(** [issubclass(c, d)]: every class is a subclass of itself, [bool] is a
    subclass of [int], and the lazy proxy class derives from [Promise]. *)
Definition issubclass (c d : pytype) : bool :=
  match c, d with
  | T_bool, T_int => true
  | T_proxy, T_Promise => true
  | _, _ => bool_decide (c = d)
  end.

Definition isinstance (v : value) (d : pytype) : bool :=
  issubclass (type_of v) d.

(** Exception classes.  [UnicodeEncodeError] derives from [ValueError];
    [ImportError cls sub] is [ImportError] itself or any class [cls]
    deriving from it ([ModuleNotFoundError], [ZipImportError], classes of
    a library); [OtherError cls sub] is any further class, one that does
    not derive from [ImportError].  In both, [sub] tells whether the
    class also derives from [ValueError]. *)
Inductive exn : Type :=
| TypeError
| ValueError
| UnicodeEncodeError
| AttributeError
| ImportError (cls : string) (derives_ValueError : bool)
| OtherError (cls : string) (derives_ValueError : bool).

(** Whether an [except ValueError] clause catches the exception. *)
Definition caught_by_ValueError (e : exn) : bool :=
  match e with
  | ValueError | UnicodeEncodeError => true
  | ImportError _ sub | OtherError _ sub => sub
  | TypeError | AttributeError => false
  end.

Inductive outcome (A : Type) : Type :=
| Ok (a : A)
| Raise (e : exn).
Arguments Ok {A} a.
Arguments Raise {A} e.

Definition bind {A B} (m : outcome A) (k : A -> outcome B) : outcome B :=
  match m with
  | Ok a => k a
  | Raise e => Raise e
  end.

Notation "x <- m ;; k" := (bind m (fun x => k))
  (at level 100, m at next level, right associativity).

(** ** The parts of the Python runtime the module calls

    The module calls builtins whose full behaviour is outside the
    repository; they are parameters of the development. *)
Record PyRuntime : Type := {
  (** [t(text)] for a class [t] that is not a key of [TYPE_FUNCTIONS] *)
  call_type : pytype -> string -> outcome value;
  (** [old += new] for operand pairs not fixed by [py_iadd] below *)
  iadd_other : value -> value -> outcome value;
  (** [a == b] when an operand is a lazy proxy *)
  eq_other : value -> value -> bool;
  (** [str.title] *)
  str_title : string -> string
}.

(** [v is None] *)
Definition is_None (v : value) : bool :=
  match v with
  | VNone => true
  | _ => false
  end.

(** The integer a [bool] or [int] stands for in arithmetic. *)
Definition as_int (v : value) : option Z :=
  match v with
  | VBool b => Some (if b then 1 else 0)
  | VInt n => Some n
  | _ => None
  end.

Fixpoint bytes_eqb (a b : list Byte.byte) : bool :=
  match a, b with
  | [], [] => true
  | x :: a', y :: b' => Byte.eqb x y && bytes_eqb a' b'
  | _, _ => false
  end.

(** [a == b] on the modelled values: numbers compare by value across
    [bool] and [int], sequences of the same class element by element,
    values of unrelated classes are unequal. *)
Fixpoint py_eq (py : PyRuntime) (a b : value) {struct a} : bool :=
  let fix seq_eq (xs ys : list value) {struct xs} : bool :=
    match xs, ys with
    | [], [] => true
    | x :: xs', y :: ys' => py_eq py x y && seq_eq xs' ys'
    | _, _ => false
    end in
  match a, b with
  | VLazy _, _ | _, VLazy _ => eq_other py a b
  | VNone, VNone => true
  | VBool x, VBool y => bool_decide (x = y)
  | VBool x, VInt n => (if x then 1 else 0) =? n
  | VInt n, VBool y => n =? (if y then 1 else 0)
  | VInt n, VInt m => n =? m
  | VStr s, VStr t => String.eqb s t
  | VBytes x, VBytes y => bytes_eqb x y
  | VList xs, VList ys => seq_eq xs ys
  | VTuple xs, VTuple ys => seq_eq xs ys
  | _, _ => false
  end.

(** [a != b] *)
Definition py_ne (py : PyRuntime) (a b : value) : bool :=
  negb (py_eq py a b).

(** [old += new], as the value the target holds afterwards: a list is
    extended by a list or a tuple, sequences of one class are
    concatenated, numbers are added.

    Values here carry no object identity.  For a tuple, a string, a
    byte-string or a number Python binds the target to a new object, and
    the value is all there is.  For a list Python extends the object in
    place, so every other holder of that same list object (another
    descriptor registered with it, a variable of the caller) sees the
    extension too; that sharing is not represented, and the statements
    below that speak of other descriptors exclude an append onto a
    list. *)
Definition py_iadd (py : PyRuntime) (old new : value) : outcome value :=
  match old, new with
  | VList a, VList b | VList a, VTuple b => Ok (VList (a ++ b))
  | VTuple a, VTuple b => Ok (VTuple (a ++ b))
  | VStr a, VStr b => Ok (VStr (a +:+ b))
  | VBytes a, VBytes b => Ok (VBytes (a ++ b))
  | _, _ =>
      match as_int old, as_int new with
      | Some x, Some y => Ok (VInt (x + y))
      | _, _ => iadd_other py old new
      end
  end.

(** [s.replace("_", " ")] *)
Fixpoint replace_underscores (s : string) : string :=
  match s with
  | EmptyString => EmptyString
  | String c s' =>
      String (if Ascii.eqb c "_"%char then " "%char else c)
             (replace_underscores s')
  end.

(** ** The registry *)

(** One entry of [registry]: the dict stored by [register_setting]. *)
Record Setting : Type := {
  setting_name : string;
  setting_label : value;
  setting_editable : bool;
  setting_description : value;
  setting_default : value;
  setting_choices : value;
  setting_type : pytype;
  setting_translatable : bool
}.

(** [d["default"] = v] *)
Definition set_default (d : Setting) (v : value) : Setting :=
  {| setting_name := setting_name d;
     setting_label := setting_label d;
     setting_editable := setting_editable d;
     setting_description := setting_description d;
     setting_default := v;
     setting_choices := setting_choices d;
     setting_type := setting_type d;
     setting_translatable := setting_translatable d |}.

(** The chain of [isinstance] tests of [register_setting]. *)
Definition infer_type (default : value) : pytype :=
  if isinstance default T_bool then T_bool
  else if isinstance default T_int then T_int
  else if isinstance default T_str || isinstance default T_Promise then T_str
  else if isinstance default T_bytes then T_bytes
  else type_of default.

Section Registry.

Context (py : PyRuntime).
(** [django.conf.settings], as the mapping of the attributes it defines. *)
Context (django_settings : gmap string value).

(** [hasattr(django_settings, name)] *)
Definition hasattr (name : string) : bool :=
  bool_decide (is_Some (django_settings !! name)).

(** [register_setting(name, label, editable, description, default,
    choices, append, translatable)] run on the module-level [registry]:
    the outcome of the call and the registry after it. *)
Definition register_setting
    (name : option string) (label : value) (editable : bool)
    (description default choices : value) (append translatable : bool)
    (registry : gmap string Setting)
  : outcome unit * gmap string Setting :=
  match name with
  | None => (Raise TypeError, registry)
  | Some name =>
      if editable && is_None default then
        (Raise TypeError, registry)
      else
        match (if append then registry !! name else None) with
        | Some d =>
            match py_iadd py (setting_default d) default with
            | Ok v => (Ok tt, <[name := set_default d v]> registry)
            | Raise e => (Raise e, registry)
            end
        | None =>
            let editable := if hasattr name then false else editable in
            let label :=
              match label with
              | VNone => VStr (str_title py (replace_underscores name))
              | _ => label
              end in
            let setting_type := infer_type default in
            (Ok tt,
             <[name := {| setting_name := name;
                          setting_label := label;
                          setting_editable := editable;
                          setting_description := description;
                          setting_default := default;
                          setting_choices := choices;
                          setting_type := setting_type;
                          setting_translatable := translatable |}]> registry)
        end
  end.

End Registry.

(** ** The settings object *)

(** Keys of [_editable_caches]: a request object, identified by a number,
    or the class attribute [NULL_REQUEST]. *)
Inductive request : Type :=
| NULL_REQUEST
| Request (id : positive).

#[global] Instance request_eq_dec : EqDecision request.
Proof. solve_decision. Defined.

#[global] Instance request_countable : Countable request.
Proof.
  refine (inj_countable'
            (fun r => match r with NULL_REQUEST => None | Request i => Some i end)
            (fun o => match o with None => NULL_REQUEST | Some i => Request i end)
            _).
  by intros [].
Defined.

(** A row of the [Setting] model: the columns the module reads. *)
Record Row : Type := {
  row_name : string;
  row_value : string
}.

(** Queries sent to the database. *)
Inductive db_op : Type :=
| DbScan                             (* Setting.objects.all() *)
| DbDelete (names : list string).    (* filter(name__in=names).delete() *)

(** The state the [Settings] object lives in: its own
    [_editable_caches], the rows of the table, the queries issued so far
    and the messages passed to [warn].

    [_editable_caches] is a [WeakKeyDictionary]: Python drops an entry
    once its request object is reclaimed, which cannot happen while that
    request is still the ambient one.  The map below keeps such entries;
    a request number stands for one request object and is never reused,
    so a kept entry is read by no later request. *)
Record State : Type := {
  _editable_caches : gmap request (gmap string value);
  db_rows : list Row;
  db_log : list db_op;
  warnings : list string
}.

Definition set_caches (st : State) (c : gmap request (gmap string value)) : State :=
  {| _editable_caches := c;
     db_rows := db_rows st;
     db_log := db_log st;
     warnings := warnings st |}.

Definition set_rows (st : State) (rows : list Row) : State :=
  {| _editable_caches := _editable_caches st;
     db_rows := rows;
     db_log := db_log st;
     warnings := warnings st |}.

Definition log_query (st : State) (q : db_op) : State :=
  {| _editable_caches := _editable_caches st;
     db_rows := db_rows st;
     db_log := db_log st ++ [q];
     warnings := warnings st |}.

(** [warn(msg, ...)] *)
Definition warn (st : State) (msg : string) : State :=
  {| _editable_caches := _editable_caches st;
     db_rows := db_rows st;
     db_log := db_log st;
     warnings := warnings st ++ [msg] |}.

(** [Settings.__init__], run against a table [rows]. *)
Definition Settings_init (rows : list Row) : State :=
  {| _editable_caches := {[ NULL_REQUEST := ∅ ]};
     db_rows := rows;
     db_log := [];
     warnings := [] |}.

(** [Settings._current_request]: [current_request() or self.NULL_REQUEST],
    where [current_request()] is the ambient request or [None]. *)
Definition _current_request (ambient : option positive) : request :=
  match ambient with
  | Some id => Request id
  | None => NULL_REQUEST
  end.

(** [Settings.TYPE_FUNCTIONS], as the partial map [TYPE_FUNCTIONS.get]
    looks up. *)
Definition TYPE_FUNCTIONS (t : pytype) : option (string -> outcome value) :=
  match t with
  | T_bool => Some (fun val => Ok (VBool (negb (String.eqb val "False"))))
  | T_bytes => Some (fun val => Ok (VBytes (list_byte_of_string val)))
  | _ => None
  end.

(** The three local variables of [_load]. *)
Record LoadAcc : Type := {
  removed_settings : list string;
  conflicting_settings : list string;
  new_cache : gmap string value
}.

Definition conflict_warning (conflicting : list string) : string :=
  "These settings are defined in both settings.py and the database: "
  +:+ String.concat ", " conflicting
  +:+ ". The settings.py values will be used.".

Definition deprecation_warning : string :=
  "Settings.use_editable() is deprecated in favour of "
  +:+ "Settings.clear_cache(). Please update your code.".

Section Resolver.

Context (py : PyRuntime).
Context (registry : gmap string Setting).
Context (django_settings : gmap string value).

(** [type_fn(setting_obj.value)] with
    [type_fn = TYPE_FUNCTIONS.get(setting_type, setting_type)] *)
Definition type_fn (setting_type : pytype) (val : string) : outcome value :=
  match TYPE_FUNCTIONS setting_type with
  | Some f => f val
  | None => call_type py setting_type val
  end.

(** The [try: ... except ValueError:] around the conversion. *)
Definition convert (d : Setting) (val : string) : outcome value :=
  match type_fn (setting_type d) val with
  | Ok v => Ok v
  | Raise e =>
      if caught_by_ValueError e then Ok (setting_default d) else Raise e
  end.

(** One iteration of the [for setting_obj in Setting.objects.all()] loop. *)
Definition load_row (acc : LoadAcc) (setting_obj : Row) : outcome LoadAcc :=
  let name := row_name setting_obj in
  match registry !! name with
  | None =>
      Ok {| removed_settings := removed_settings acc ++ [name];
            conflicting_settings := conflicting_settings acc;
            new_cache := new_cache acc |}
  | Some d =>
      setting_value <- convert d (row_value setting_obj) ;;
      match django_settings !! name with
      | None =>
          Ok {| removed_settings := removed_settings acc;
                conflicting_settings := conflicting_settings acc;
                new_cache := <[name := setting_value]> (new_cache acc) |}
      | Some _ =>
          if py_ne py setting_value (setting_default d) then
            Ok {| removed_settings := removed_settings acc;
                  conflicting_settings := conflicting_settings acc ++ [name];
                  new_cache := new_cache acc |}
          else Ok acc
      end
  end.

Fixpoint load_rows (acc : LoadAcc) (rows : list Row) : outcome LoadAcc :=
  match rows with
  | [] => Ok acc
  | setting_obj :: rest =>
      acc' <- load_row acc setting_obj ;;
      load_rows acc' rest
  end.

Definition empty_acc : LoadAcc :=
  {| removed_settings := []; conflicting_settings := []; new_cache := ∅ |}.

(** [Setting.objects.filter(name__in=names).delete()] *)
Definition delete_rows (names : list string) (st : State) : State :=
  set_rows (log_query st (DbDelete names))
           (filter (fun r => row_name r ∉ names) (db_rows st)).

(** [Settings._load] *)
Definition _load (st : State) : outcome (gmap string value) * State :=
  let st := log_query st DbScan in
  match load_rows empty_acc (db_rows st) with
  | Raise e => (Raise e, st)
  | Ok acc =>
      let st :=
        match removed_settings acc with
        | [] => st
        | _ :: _ => delete_rows (removed_settings acc) st
        end in
      let st :=
        match conflicting_settings acc with
        | [] => st
        | _ :: _ => warn st (conflict_warning (conflicting_settings acc))
        end in
      (Ok (new_cache acc), st)
  end.

(** [Settings._get_editable] *)
Definition _get_editable (req : request) (st : State)
  : outcome (gmap string value) * State :=
  match _editable_caches st !! req with
  | Some editable_settings => (Ok editable_settings, st)
  | None =>
      match _load st with
      | (Ok editable_settings, st) =>
          (Ok editable_settings,
           set_caches st (<[req := editable_settings]> (_editable_caches st)))
      | (Raise e, st) => (Raise e, st)
      end
  end.

(** [Settings.clear_cache] *)
Definition clear_cache (ambient : option positive) (st : State) : State :=
  set_caches st (delete (_current_request ambient) (_editable_caches st)).

(** [Settings.use_editable] *)
Definition use_editable (ambient : option positive) (st : State) : State :=
  warn (clear_cache ambient st) deprecation_warning.

(** [getattr(django_settings, name)] *)
Definition getattr (name : string) : outcome value :=
  match django_settings !! name with
  | Some v => Ok v
  | None => Raise AttributeError
  end.

(** [getattr(django_settings, name, dflt)] *)
Definition getattr_default (name : string) (dflt : value) : value :=
  match django_settings !! name with
  | Some v => v
  | None => dflt
  end.

(** [Settings.__getattr__], called with the ambient request of the
    caller. *)
Definition __getattr__ (ambient : option positive) (name : string) (st : State)
  : outcome value * State :=
  match registry !! name with
  | None => (getattr name, st)
  | Some setting =>
      if negb (setting_editable setting) then
        (Ok (getattr_default name (setting_default setting)), st)
      else
        match _get_editable (_current_request ambient) st with
        | (Raise e, st) => (Raise e, st)
        | (Ok editable_cache, st) =>
            match editable_cache !! name with
            | Some v => (Ok v, st)
            | None =>
                (Ok (getattr_default name (setting_default setting)), st)
            end
        end
  end.

(** What the rest of the process does to the state: attribute reads on
    the settings object, cache clears, and writes to the table by other
    actors (the admin, other processes). *)
Inductive op : Type :=
| Access (ambient : option positive) (name : string)
| ClearCache (ambient : option positive)
| DbWrite (rows : list Row).

Definition run_op (o : op) (st : State) : State :=
  match o with
  | Access ambient name => snd (__getattr__ ambient name st)
  | ClearCache ambient => clear_cache ambient st
  | DbWrite rows => set_rows st rows
  end.

Definition run (ops : list op) (st : State) : State :=
  foldl (fun st o => run_op o st) st ops.

End Resolver.

(** ** A runtime for evaluating the model on concrete inputs

    [sample_runtime] fixes the runtime parameters on the inputs the
    examples below use.  It agrees with CPython 3 on ASCII text, except
    that [sample_int] accepts only the plain decimal fragment of [int()];
    lazy proxies are compared as their untranslated text. *)

Definition digit_of (c : ascii) : option Z :=
  let n := Z.of_nat (nat_of_ascii c) in
  if (48 <=? n) && (n <=? 57) then Some (n - 48) else None.

Fixpoint digits_value (acc : Z) (s : string) : option Z :=
  match s with
  | EmptyString => Some acc
  | String c s' =>
      match digit_of c with
      | Some d => digits_value (10 * acc + d) s'
      | None => None
      end
  end.

(** [int(text)] on an optional sign followed by ASCII digits; any other
    text raises [ValueError] here. *)
Definition sample_int (text : string) : outcome value :=
  let '(negative, body) :=
    match text with
    | String "-"%char s' => (true, s')
    | String "+"%char s' => (false, s')
    | _ => (false, text)
    end in
  match body with
  | EmptyString => Raise ValueError
  | _ =>
      match digits_value 0 body with
      | Some n => Ok (VInt (if negative then - n else n))
      | None => Raise ValueError
      end
  end.

(** The one-character strings of an ASCII text. *)
Fixpoint chars_of (s : string) : list value :=
  match s with
  | EmptyString => []
  | String c s' => VStr (String c EmptyString) :: chars_of s'
  end.

Definition sample_call_type (t : pytype) (text : string) : outcome value :=
  match t with
  | T_int => sample_int text
  | T_str => Ok (VStr text)
  | T_bool => Ok (VBool (negb (String.eqb text "")))
  | T_list => Ok (VList (chars_of text))
  | T_tuple => Ok (VTuple (chars_of text))
  (* NoneType takes no arguments; bytes needs an encoding; Promise and
     its proxy class are not constructed from one text argument *)
  | T_NoneType | T_bytes | T_proxy | T_Promise => Raise TypeError
  end.

Definition sample_iadd_other (old new : value) : outcome value :=
  match old, new with
  | VList a, VStr s => Ok (VList (a ++ chars_of s))
  | _, _ => Raise TypeError
  end.

Definition lazy_text (v : value) : option string :=
  match v with
  | VStr s | VLazy s => Some s
  | _ => None
  end.

Definition sample_eq_other (a b : value) : bool :=
  match lazy_text a, lazy_text b with
  | Some s, Some t => String.eqb s t
  | _, _ => false
  end.

Definition is_lower (c : ascii) : bool :=
  let n := nat_of_ascii c in (97 <=? n)%nat && (n <=? 122)%nat.
Definition is_upper (c : ascii) : bool :=
  let n := nat_of_ascii c in (65 <=? n)%nat && (n <=? 90)%nat.
Definition to_upper (c : ascii) : ascii :=
  if is_lower c then ascii_of_nat (nat_of_ascii c - 32) else c.
Definition to_lower (c : ascii) : ascii :=
  if is_upper c then ascii_of_nat (nat_of_ascii c + 32) else c.

(** [str.title] on ASCII text: a letter is upper-cased after a
    non-letter and lower-cased after a letter. *)
Fixpoint title_from (after_letter : bool) (s : string) : string :=
  match s with
  | EmptyString => EmptyString
  | String c s' =>
      let letter := is_lower c || is_upper c in
      String (if after_letter then to_lower c else to_upper c)
             (title_from letter s')
  end.

Definition sample_runtime : PyRuntime :=
  {| call_type := sample_call_type;
     iadd_other := sample_iadd_other;
     eq_other := sample_eq_other;
     str_title := title_from false |}.

(** [register_setting(name=..., editable=..., default=...)] with the
    other keyword arguments at their defaults, on the sample runtime. *)
Definition register_sample
    (django_settings : gmap string value)
    (name : string) (editable : bool) (default : value)
    (registry : gmap string Setting) : gmap string Setting :=
  snd (register_setting sample_runtime django_settings (Some name) VNone
         editable VNone default VNone false false registry).

(** Sequence concatenation as the specification words it: two sequences
    of one class, joined in order. *)
Definition concatenation (old new : value) : option value :=
  match old, new with
  | VList a, VList b => Some (VList (a ++ b))
  | VTuple a, VTuple b => Some (VTuple (a ++ b))
  | VStr a, VStr b => Some (VStr (a +:+ b))
  | VBytes a, VBytes b => Some (VBytes (a ++ b))
  | _, _ => None
  end.

(** ** What a load should compute, read off the table

    These describe the result of [_load] row by row; the theorems below
    relate them to the loop. *)
Section LoadSpec.

Context (py : PyRuntime).
Context (registry : gmap string Setting).
Context (django_settings : gmap string value).

(** The row's conversion does not let an exception escape. *)
Definition convertible (row : Row) : bool :=
  match registry !! row_name row with
  | None => true
  | Some d =>
      match convert py d (row_value row) with
      | Ok _ => true
      | Raise _ => false
      end
  end.

(** The row's name is registered, the framework settings define it, and
    the converted database value differs from the registered default. *)
Definition in_conflict (row : Row) : bool :=
  match registry !! row_name row with
  | None => false
  | Some d =>
      match convert py d (row_value row) with
      | Ok v =>
          bool_decide (is_Some (django_settings !! row_name row))
          && py_ne py v (setting_default d)
      | Raise _ => false
      end
  end.

Definition unregistered_names (rows : list Row) : list string :=
  row_name <$> filter (fun r => registry !! row_name r = None) rows.

Definition conflicting_names (rows : list Row) : list string :=
  row_name <$> filter (fun r => in_conflict r) rows.

(** What an attribute read returns once the editable settings of the
    request are [cache]. *)
Definition resolve_with (cache : gmap string value) (name : string)
  : outcome value :=
  match registry !! name with
  | None => getattr django_settings name
  | Some d =>
      if setting_editable d then
        match cache !! name with
        | Some v => Ok v
        | None => Ok (getattr_default django_settings name (setting_default d))
        end
      else Ok (getattr_default django_settings name (setting_default d))
  end.

End LoadSpec.

(** An operation that is not a [clear_cache] under the identity [r]. *)
Definition keeps_cache_of (r : request) (o : op) : Prop :=
  match o with
  | ClearCache ambient => _current_request ambient <> r
  | _ => True
  end.

(** ** A small site, used to evaluate the model

    The framework settings define [SITE_TITLE] only.  Three settings are
    registered: [ITEMS_PER_PAGE] (editable, default 10), [SITE_TITLE]
    (asked to be editable) and [OLD_FLAG] (no default given). *)
Definition sample_django : gmap string value :=
  {[ "SITE_TITLE" := VStr "My site" ]}.

Definition sample_registry : gmap string Setting :=
  register_sample sample_django "OLD_FLAG" false VNone
    (register_sample sample_django "SITE_TITLE" true (VStr "Mezzanine")
       (register_sample sample_django "ITEMS_PER_PAGE" true (VInt 10) ∅)).

Definition row (name val : string) : Row :=
  {| row_name := name; row_value := val |}.

(** The descriptor [sample_registry] holds for [ITEMS_PER_PAGE]. *)
Definition sample_items_per_page : Setting :=
  {| setting_name := "ITEMS_PER_PAGE";
     setting_label := VStr "Items Per Page";
     setting_editable := true;
     setting_description := VNone;
     setting_default := VInt 10;
     setting_choices := VNone;
     setting_type := T_int;
     setting_translatable := false |}.

(** An importer for evaluating the discovery loop: the world is the list
    of modules imported so far; [mezzanine.core] and [shop] import with
    their [defaults], [blog] has no [defaults] module, [broken] has one
    that raises, and every other application is missing. *)
Definition sample_import (name : string) (w : list string)
  : outcome unit * list string :=
  if bool_decide (name ∈ ["mezzanine.core"; "mezzanine.core.defaults";
                          "shop"; "shop.defaults"; "blog"; "broken"])
  then (Ok tt, w ++ [name])
  else if String.eqb name "broken.defaults" then (Raise TypeError, w)
  else (Raise (ImportError "ModuleNotFoundError" false), w).

Definition sample_has_defaults (app : string) : bool :=
  bool_decide (app ∈ ["mezzanine.core"; "shop"; "broken"]).

(** ** Invariants and side conditions used by the further properties *)

(** Every descriptor is stored under its own name, and no editable
    descriptor has a name the framework settings define. *)
Definition registry_ok (django_settings : gmap string value)
    (registry : gmap string Setting) : Prop :=
  forall k d, registry !! k = Some d ->
    setting_name d = k
    /\ (setting_editable d = true -> django_settings !! k = None).

(** Whether the call extends a list object in place: it takes the append
    path ([append] and [name in registry]) and the default it appends to
    is a list, the one mutable class among the modelled values. *)
Definition extends_list_in_place (name : option string) (append : bool)
    (registry : gmap string Setting) : bool :=
  match name with
  | Some n =>
      append &&
      match registry !! n with
      | Some d =>
          match setting_default d with
          | VList _ => true
          | _ => false
          end
      | None => false
      end
  | None => false
  end.

(** An operation that leaves the entry of the identity [r] alone and
    reads under no other identity: a read under [r], a [clear_cache]
    under another identity, or a write to the table. *)
Definition under_identity (r : request) (o : op) : Prop :=
  match o with
  | Access ambient _ => _current_request ambient = r
  | ClearCache ambient => _current_request ambient <> r
  | DbWrite _ => True
  end.

(** An operation of the settings object itself, as opposed to a write to
    the table by another actor. *)
Definition own_op (o : op) : Prop :=
  match o with
  | DbWrite _ => False
  | _ => True
  end.

(** ** Discovery of the [defaults] modules at import time *)

(** [mezz_first = lambda app: not app.startswith("mezzanine.")] *)
Definition mezz_first (app : string) : bool :=
  negb (String.prefix "mezzanine." app).

(** [sorted(apps, key=key)] for a boolean key.  [sorted] is stable and
    [False < True]; a stable insertion sort returns the same list. *)
Fixpoint insert_by_key {A} (key : A -> bool) (x : A) (l : list A) : list A :=
  match l with
  | [] => [x]
  | y :: l' =>
      if implb (key x) (key y) then x :: y :: l'
      else y :: insert_by_key key x l'
  end.

Fixpoint sorted_by_key {A} (key : A -> bool) (l : list A) : list A :=
  match l with
  | [] => []
  | x :: l' => insert_by_key key x (sorted_by_key key l')
  end.

(** Whether an [except ImportError] clause catches the exception:
    [ImportError] and every class deriving from it. *)
Definition caught_by_ImportError (e : exn) : bool :=
  match e with
  | ImportError _ _ => true
  | TypeError | ValueError | UnicodeEncodeError | AttributeError
  | OtherError _ _ => false
  end.

Section Discovery.

(** The state of the interpreter that imports act on (loaded modules,
    the registry, ...). *)
Context {World : Type}.
(** [import_module(name)] *)
Context (import_module : string -> World -> outcome unit * World).
(** [module_has_submodule(module, "defaults")], for the module of an
    application. *)
Context (module_has_submodule : string -> bool).

(** The body of the [for app in sorted(...)] loop at the end of the
    module. *)
Definition discover_app (app : string) (w : World) : outcome unit * World :=
  match import_module app w with
  | (Raise e, w) =>
      if caught_by_ImportError e then (Ok tt, w) else (Raise e, w)
  | (Ok _, w) =>
      match import_module (app +:+ ".defaults") w with
      | (Ok _, w) => (Ok tt, w)
      | (Raise e, w) =>
          if module_has_submodule app then (Raise e, w) else (Ok tt, w)
      end
  end.

Fixpoint discover_apps (apps : list string) (w : World)
  : outcome unit * World :=
  match apps with
  | [] => (Ok tt, w)
  | app :: rest =>
      match discover_app app w with
      | (Ok _, w) => discover_apps rest w
      | (Raise e, w) => (Raise e, w)
      end
  end.

(** The whole loop over [django_settings.INSTALLED_APPS]. *)
Definition discover (INSTALLED_APPS : list string) (w : World)
  : outcome unit * World :=
  discover_apps (sorted_by_key mezz_first INSTALLED_APPS) w.

End Discovery.

(** * Properties of the registry *)

Example title_example :
  title_from false (replace_underscores "ITEMS_PER_PAGE") = "Items Per Page".
Proof. reflexivity. Qed.

Example sample_int_examples :
  sample_int "25" = Ok (VInt 25) /\ sample_int "-7" = Ok (VInt (-7))
  /\ sample_int "abc" = Raise ValueError /\ sample_int "" = Raise ValueError.
Proof. repeat split. Qed.

(** The class inferred for each shape of default. *)
Lemma infer_type_cases (v : value) :
  infer_type v =
  match v with
  | VBool _ => T_bool
  | VInt _ => T_int
  | VStr _ | VLazy _ => T_str
  | VBytes _ => T_bytes
  | VNone | VList _ | VTuple _ => type_of v
  end.
Proof. by destruct v. Qed.

(** A [bool] is an instance of [int]: were the [int] test first, a
    boolean default would be given the class [int]. *)
Lemma bool_isinstance_int (b : bool) : isinstance (VBool b) T_int = true.
Proof. reflexivity. Qed.

(** Outside the append path an accepted call stores a fresh descriptor
    built from its arguments. *)
Lemma register_setting_stores py dj name label editable description default
    choices append translatable (reg : gmap string Setting) :
  editable && is_None default = false ->
  append = false \/ reg !! name = None ->
  register_setting py dj (Some name) label editable description default
    choices append translatable reg
  = (Ok tt,
     <[name := {| setting_name := name;
                  setting_label :=
                    match label with
                    | VNone => VStr (str_title py (replace_underscores name))
                    | _ => label
                    end;
                  setting_editable := if hasattr dj name then false else editable;
                  setting_description := description;
                  setting_default := default;
                  setting_choices := choices;
                  setting_type := infer_type default;
                  setting_translatable := translatable |}]> reg).
Proof.
  intros Hvalid Hpath. unfold register_setting. rewrite Hvalid.
  destruct Hpath as [-> | Hfree].
  - reflexivity.
  - rewrite Hfree. by destruct append.
Qed.

(** C7: on every accepted call outside the append path the stored
    descriptor's type is obtained from the default by the tests, in this
    order: instance of bool gives bool (although a bool is also an
    instance of int); else instance of int gives int; else instance of
    str or of Promise gives str; else instance of bytes gives bytes; else
    the default's own class.  In particular True gives bool, 5 gives int,
    "a" gives str and b"a" gives bytes. *)
Theorem register_setting_infers_type py dj name label editable description
    default choices append translatable (reg : gmap string Setting) :
  editable && is_None default = false ->
  append = false \/ reg !! name = None ->
  (exists d,
     register_setting py dj (Some name) label editable description default
       choices append translatable reg = (Ok tt, <[name := d]> reg)
     /\ (<[name := d]> reg) !! name = Some d
     /\ setting_type d = infer_type default
     /\ (isinstance default T_bool = true -> setting_type d = T_bool)
     /\ (isinstance default T_bool = false -> isinstance default T_int = true ->
         setting_type d = T_int)
     /\ (isinstance default T_bool = false -> isinstance default T_int = false ->
         isinstance default T_str || isinstance default T_Promise = true ->
         setting_type d = T_str)
     /\ (isinstance default T_bool = false -> isinstance default T_int = false ->
         isinstance default T_str || isinstance default T_Promise = false ->
         isinstance default T_bytes = true -> setting_type d = T_bytes)
     /\ (isinstance default T_bool = false -> isinstance default T_int = false ->
         isinstance default T_str || isinstance default T_Promise = false ->
         isinstance default T_bytes = false ->
         setting_type d = type_of default))
  /\ (forall b, infer_type (VBool b) = T_bool /\ isinstance (VBool b) T_int = true)
  /\ (forall n, infer_type (VInt n) = T_int)
  /\ (forall s, infer_type (VStr s) = T_str /\ infer_type (VLazy s) = T_str)
  /\ (forall bs, infer_type (VBytes bs) = T_bytes)
  /\ infer_type (VBool true) = T_bool
  /\ infer_type (VInt 5) = T_int
  /\ infer_type (VStr "a") = T_str
  /\ infer_type (VBytes [Byte.x61]) = T_bytes.
Proof.
  intros Hvalid Hpath. split; [| by repeat split].
  eexists. split; [by apply register_setting_stores |].
  split; [apply lookup_insert_eq |]. cbn [setting_type].
  unfold infer_type.
  repeat split; intros; repeat match goal with H : _ = _ |- _ => rewrite H end;
    reflexivity.
Qed.

Lemma register_setting_infers_type_witness :
  exists d,
    register_setting sample_runtime ∅ (Some "FLAG") VNone true VNone
      (VBool true) VNone false false ∅ = (Ok tt, <[ "FLAG" := d ]> ∅)
    /\ setting_type d = T_bool.
Proof.
  destruct (register_setting_infers_type sample_runtime ∅ "FLAG" VNone true
              VNone (VBool true) VNone false false ∅)
    as [(d & Hreg & _ & Hty & _) _].
  - reflexivity.
  - by left.
  - exists d. split; [exact Hreg | exact Hty].
Defined.

(** C6: an accepted call outside the append path whose name the
    framework settings define stores a descriptor that is not editable,
    whatever [editable] argument was passed. *)
Theorem register_setting_framework_name_not_editable py dj name label editable
    description default choices append translatable
    (reg : gmap string Setting) :
  is_Some (dj !! name) ->
  editable && is_None default = false ->
  append = false \/ reg !! name = None ->
  exists d,
    register_setting py dj (Some name) label editable description default
      choices append translatable reg = (Ok tt, <[name := d]> reg)
    /\ (<[name := d]> reg) !! name = Some d
    /\ setting_editable d = false.
Proof.
  intros Hdj Hvalid Hpath.
  eexists. split; [by apply register_setting_stores |].
  split; [apply lookup_insert_eq |]. cbn [setting_editable].
  unfold hasattr. by rewrite bool_decide_eq_true_2.
Qed.

Lemma register_setting_framework_name_not_editable_witness :
  exists d,
    register_setting sample_runtime {[ "SITE_ID" := VInt 1 ]} (Some "SITE_ID")
      VNone true VNone (VInt 2) VNone false false ∅
    = (Ok tt, <[ "SITE_ID" := d ]> ∅)
    /\ setting_editable d = false.
Proof.
  destruct (register_setting_framework_name_not_editable sample_runtime
              {[ "SITE_ID" := VInt 1 ]} "SITE_ID" VNone true VNone (VInt 2)
              VNone false false ∅)
    as (d & Hreg & _ & Hed).
  - rewrite lookup_singleton_eq. by eexists.
  - reflexivity.
  - by left.
  - exists d. split; [exact Hreg | exact Hed].
Defined.

(** The append path in full: after the two argument checks, the call
    computes [registry[name]["default"] += default] and returns; no other
    argument is looked at. *)
Lemma register_setting_append_path py dj name label editable description
    default choices translatable (reg : gmap string Setting) d :
  reg !! name = Some d ->
  register_setting py dj (Some name) label editable description default
    choices true translatable reg
  = if editable && is_None default then (Raise TypeError, reg)
    else match py_iadd py (setting_default d) default with
         | Ok v => (Ok tt, <[name := set_default d v]> reg)
         | Raise e => (Raise e, reg)
         end.
Proof. intros Hreg. unfold register_setting. by rewrite Hreg. Qed.

(** A value that can be concatenated onto another is not [None], and
    [+=] computes the concatenation. *)
Lemma concatenation_iadd py old new v :
  concatenation old new = Some v ->
  is_None new = false /\ py_iadd py old new = Ok v.
Proof.
  destruct old, new; simpl; intros [= <-]; by split.
Qed.

(** C8: a call with [append] true and a registered name whose new
    default can be concatenated onto the existing one returns at once;
    the registry maps the name to the old descriptor with the
    concatenated default, its other fields (name, label, editable,
    description, choices, type, translatable) as before, and no argument
    other than [default] has any effect.  Appending ["b"] to ["a"] gives
    ["a", "b"]. *)
Theorem register_setting_append_concatenates py dj name label editable
    description default choices translatable
    (reg : gmap string Setting) d v :
  reg !! name = Some d ->
  concatenation (setting_default d) default = Some v ->
  (exists d',
     register_setting py dj (Some name) label editable description default
       choices true translatable reg = (Ok tt, <[name := d']> reg)
     /\ setting_default d' = v
     /\ setting_name d' = setting_name d
     /\ setting_label d' = setting_label d
     /\ setting_editable d' = setting_editable d
     /\ setting_description d' = setting_description d
     /\ setting_choices d' = setting_choices d
     /\ setting_type d' = setting_type d
     /\ setting_translatable d' = setting_translatable d)
  /\ concatenation (VList [VStr "a"]) (VList [VStr "b"])
     = Some (VList [VStr "a"; VStr "b"]).
Proof.
  intros Hreg Hcat. split; [| reflexivity].
  destruct (concatenation_iadd py _ _ _ Hcat) as [Hnone Hadd].
  exists (set_default d v). split; [| by repeat split].
  rewrite (register_setting_append_path _ _ _ _ _ _ _ _ _ _ _ Hreg).
  by rewrite Hnone, andb_false_r, Hadd.
Qed.

Lemma register_setting_append_concatenates_witness :
  let reg := register_sample ∅ "EXTRA" false (VList [VStr "a"]) ∅ in
  exists d',
    register_setting sample_runtime ∅ (Some "EXTRA") (VStr "other") true
      (VStr "ignored") (VList [VStr "b"]) VNone true true reg
    = (Ok tt, <[ "EXTRA" := d' ]> reg)
    /\ setting_default d' = VList [VStr "a"; VStr "b"]
    /\ setting_label d' = VStr "Extra"
    /\ setting_editable d' = false.
Proof.
  intros reg.
  destruct (register_setting_append_concatenates sample_runtime ∅ "EXTRA"
              (VStr "other") true (VStr "ignored") (VList [VStr "b"]) VNone
              true reg
              {| setting_name := "EXTRA"; setting_label := VStr "Extra";
                 setting_editable := false; setting_description := VNone;
                 setting_default := VList [VStr "a"];
                 setting_choices := VNone; setting_type := T_list;
                 setting_translatable := false |}
              (VList [VStr "a"; VStr "b"]))
    as [(d' & Hreg & Hdef & _ & Hlab & Hed & _) _].
  - subst reg. unfold register_sample. simpl. apply lookup_insert_eq.
  - reflexivity.
  - exists d'. repeat split; assumption.
Defined.

(** * Properties of the conversion from stored text *)

(** C5: the conversion registered for [bool] in [TYPE_FUNCTIONS] maps
    the text "False" to false and every other text to true, among them
    "True", "1", the empty text and "anything". *)
Theorem bool_conversion_is_not_False py (val : string) :
  TYPE_FUNCTIONS T_bool
    = Some (fun val => Ok (VBool (negb (String.eqb val "False"))))
  /\ type_fn py T_bool val
     = Ok (VBool (if decide (val = "False") then false else true))
  /\ type_fn py T_bool "False" = Ok (VBool false)
  /\ type_fn py T_bool "True" = Ok (VBool true)
  /\ type_fn py T_bool "1" = Ok (VBool true)
  /\ type_fn py T_bool "" = Ok (VBool true)
  /\ type_fn py T_bool "anything" = Ok (VBool true)
  /\ type_fn py T_bool "false" = Ok (VBool true).
Proof.
  split; [reflexivity |]. split; [| by repeat split].
  unfold type_fn. simpl. case_decide as Heq.
  - by rewrite (proj2 (String.eqb_eq _ _) Heq).
  - by rewrite (proj2 (String.eqb_neq _ _) Heq).
Qed.

(** * Properties of a load *)

Section LoadFacts.

Context (py : PyRuntime).
Context (registry : gmap string Setting).
Context (django_settings : gmap string value).


Lemma unregistered_names_cons row rows :
  unregistered_names registry (row :: rows)
  = (if decide (registry !! row_name row = None) then [row_name row] else [])
    ++ unregistered_names registry rows.
Proof.
  unfold unregistered_names. rewrite filter_cons.
  by destruct (decide (registry !! row_name row = None)).
Qed.

Lemma conflicting_names_cons row rows :
  conflicting_names py registry django_settings (row :: rows)
  = (if in_conflict py registry django_settings row then [row_name row] else [])
    ++ conflicting_names py registry django_settings rows.
Proof.
  unfold conflicting_names. rewrite filter_cons.
  destruct (in_conflict py registry django_settings row); by case_decide.
Qed.

(** One iteration of the loop, for a row whose conversion returns. *)
Lemma load_row_convertible acc row :
  convertible py registry row = true ->
  exists acc',
    load_row py registry django_settings acc row = Ok acc'
    /\ removed_settings acc'
       = removed_settings acc
         ++ (if decide (registry !! row_name row = None) then [row_name row] else [])
    /\ conflicting_settings acc'
       = conflicting_settings acc
         ++ (if in_conflict py registry django_settings row then [row_name row] else [])
    /\ new_cache acc'
       = match registry !! row_name row, django_settings !! row_name row with
         | Some d, None =>
             match convert py d (row_value row) with
             | Ok v => <[row_name row := v]> (new_cache acc)
             | Raise _ => new_cache acc
             end
         | _, _ => new_cache acc
         end.
Proof.
  unfold convertible, in_conflict, load_row.
  destruct (registry !! row_name row) as [d|] eqn:Hreg.
  - destruct (convert py d (row_value row)) as [v|e] eqn:Hconv; [| done].
    intros _. simpl.
    destruct (django_settings !! row_name row) as [w|] eqn:Hdj.
    + rewrite bool_decide_eq_true_2 by eauto. simpl.
      destruct (py_ne py v (setting_default d)).
      * eexists. split; [done |]. simpl. by rewrite app_nil_r.
      * exists acc. by rewrite !app_nil_r.
    + rewrite bool_decide_eq_false_2 by (by intros [? ?]). simpl.
      eexists. split; [done |]. simpl. by rewrite !app_nil_r.
  - intros _. rewrite decide_True by done.
    eexists. split; [done |]. simpl. by rewrite app_nil_r.
Qed.

(** A row whose conversion lets an exception escape aborts the loop. *)
Lemma load_row_not_convertible acc row :
  convertible py registry row = false ->
  exists e, load_row py registry django_settings acc row = Raise e /\ caught_by_ValueError e = false.
Proof.
  unfold convertible, load_row.
  destruct (registry !! row_name row) as [d|]; [| done].
  unfold convert.
  destruct (type_fn py (setting_type d) (row_value row)) as [v|e]; [done |].
  destruct (caught_by_ValueError e) eqn:He; [done |].
  intros _. by exists e.
Qed.

(** The loop returns exactly when every row's conversion returns, and
    then its three accumulators are those read off the table. *)
Lemma load_rows_convertible rows : forall acc,
  forallb (convertible py registry) rows = true ->
  exists acc',
    load_rows py registry django_settings acc rows = Ok acc'
    /\ removed_settings acc' = removed_settings acc ++ unregistered_names registry rows
    /\ conflicting_settings acc'
       = conflicting_settings acc ++ conflicting_names py registry django_settings rows.
Proof.
  induction rows as [| row rows IH]; intros acc Hall.
  - exists acc. by rewrite !app_nil_r.
  - simpl in Hall. apply andb_prop in Hall as [Hrow Hrest].
    destruct (load_row_convertible acc row Hrow)
      as (acc1 & Hstep & Hrem & Hconf & _).
    destruct (IH acc1 Hrest) as (acc' & Hloop & Hrem' & Hconf').
    exists acc'. simpl. rewrite Hstep. simpl. split; [done |].
    rewrite Hrem', Hconf', Hrem, Hconf.
    by rewrite unregistered_names_cons, conflicting_names_cons, <- !app_assoc.
Qed.

Lemma load_rows_returns rows : forall acc acc',
  load_rows py registry django_settings acc rows = Ok acc' -> forallb (convertible py registry) rows = true.
Proof.
  induction rows as [| row rows IH]; intros acc acc' Hloop; [done |].
  simpl. destruct (convertible py registry row) eqn:Hrow.
  - destruct (load_row_convertible acc row Hrow) as (acc1 & Hstep & _).
    simpl in Hloop. rewrite Hstep in Hloop. simpl in Hloop. eauto.
  - destruct (load_row_not_convertible acc row Hrow) as (e & Hstep & _).
    simpl in Hloop. by rewrite Hstep in Hloop.
Qed.

(** The loop stores a value only under the name of a row that is
    registered and that the framework settings do not define. *)
Lemma load_rows_cache_frame rows : forall acc acc' name,
  load_rows py registry django_settings acc rows = Ok acc' ->
  (forall row d, row ∈ rows -> row_name row = name ->
                 registry !! name = Some d -> is_Some (django_settings !! name)) ->
  new_cache acc' !! name = new_cache acc !! name.
Proof.
  induction rows as [| row rows IH]; intros acc acc' name Hloop Hskip.
  - by injection Hloop as <-.
  - pose proof (load_rows_returns _ _ _ Hloop) as Hall.
    simpl in Hall. apply andb_prop in Hall as [Hrow _].
    destruct (load_row_convertible acc row Hrow)
      as (acc1 & Hstep & _ & _ & Hcache).
    simpl in Hloop. rewrite Hstep in Hloop. simpl in Hloop.
    rewrite (IH acc1 acc' name Hloop).
    + rewrite Hcache.
      destruct (registry !! row_name row) as [d|] eqn:Hreg; [| done].
      destruct (django_settings !! row_name row) as [w|] eqn:Hdj; [done |].
      destruct (convert py d (row_value row)); [| done].
      destruct (decide (row_name row = name)) as [Heq | Hne].
      * destruct (Hskip row d) as [w Hw]; [left | done | by rewrite <- Heq |].
        rewrite <- Heq in Hw. congruence.
      * by rewrite lookup_insert_ne.
    + intros row' d' Hin. apply Hskip. by right.
Qed.

(** The value the loop leaves under the name of a registered row that
    the framework settings do not define, when no later row has that
    name. *)
Lemma load_rows_cache_last pre row post acc acc' d v :
  load_rows py registry django_settings acc (pre ++ row :: post) = Ok acc' ->
  row_name row ∉ row_name <$> post ->
  registry !! row_name row = Some d ->
  django_settings !! row_name row = None ->
  convert py d (row_value row) = Ok v ->
  new_cache acc' !! row_name row = Some v.
Proof.
  revert acc. induction pre as [| r pre IH]; intros acc Hloop Hlast Hreg Hdj Hconv.
  - simpl in Hloop.
    assert (convertible py registry row = true) as Hrow.
    { unfold convertible. by rewrite Hreg, Hconv. }
    destruct (load_row_convertible acc row Hrow)
      as (acc1 & Hstep & _ & _ & Hcache).
    rewrite Hstep in Hloop. simpl in Hloop.
    rewrite (load_rows_cache_frame post acc1 acc' (row_name row) Hloop).
    + rewrite Hcache, Hreg, Hdj, Hconv. apply lookup_insert_eq.
    + intros row' d' Hin Heq. exfalso. apply Hlast.
      rewrite <- Heq. by apply list_elem_of_fmap_2.
  - simpl in Hloop.
    destruct (load_row py registry django_settings acc r) as [acc1|e] eqn:Hstep;
      [| done].
    simpl in Hloop. eauto.
Qed.

(** Deleting the rows named in [unregistered_names registry] keeps exactly the
    rows whose name is registered. *)
Lemma delete_unregistered (rows : list Row) :
  filter (fun r => row_name r ∉ unregistered_names registry rows) rows
  = filter (fun r => is_Some (registry !! row_name r)) rows.
Proof.
  assert (forall (names : list string) (l : list Row),
            (forall r, r ∈ l -> registry !! row_name r = None -> row_name r ∈ names) ->
            (forall n, n ∈ names -> registry !! n = None) ->
            filter (fun r => row_name r ∉ names) l
            = filter (fun r => is_Some (registry !! row_name r)) l) as Hgen.
  { intros names l. induction l as [| r l IH]; intros Hin Hout; [done |].
    rewrite !filter_cons.
    rewrite IH; [| intros r' Hr'; apply Hin; by right | done].
    destruct (decide (row_name r ∉ names)) as [Hn | Hy];
      destruct (decide (is_Some (registry !! row_name r))) as [Hs | Hns];
      try done.
    - exfalso. apply Hn. apply Hin; [left |].
      by apply eq_None_not_Some.
    - exfalso. apply dec_stable in Hy. apply Hout in Hy.
      destruct Hs as [d Hd]. congruence. }
  apply Hgen.
  - intros r Hr Hnone. unfold unregistered_names.
    apply list_elem_of_fmap_2. by apply list_elem_of_filter.
  - intros n Hn. unfold unregistered_names in Hn.
    apply list_elem_of_fmap in Hn as (r & -> & Hr).
    by apply list_elem_of_filter in Hr as [? _].
Qed.

(** A row whose conversion lets an exception escape makes the loop
    raise an exception that [except ValueError] does not catch. *)
Lemma load_rows_raises rows : forall acc,
  forallb (convertible py registry) rows = false ->
  exists e,
    load_rows py registry django_settings acc rows = Raise e
    /\ caught_by_ValueError e = false.
Proof.
  induction rows as [| r rows IH]; intros acc Hall; [done |].
  simpl in Hall. destruct (convertible py registry r) eqn:Hrow.
  - destruct (load_row_convertible acc r Hrow)
      as (acc1 & Hstep & _).
    destruct (IH acc1 Hall) as (e & Hloop & He).
    exists e. simpl. by rewrite Hstep.
  - destruct (load_row_not_convertible acc r Hrow)
      as (e & Hstep & He).
    exists e. simpl. by rewrite Hstep.
Qed.

End LoadFacts.

Section LoadClaims.

Context (py : PyRuntime).
Context (registry : gmap string Setting).
Context (django_settings : gmap string value).

Lemma filter_not_in_nil (rows : list Row) :
  filter (fun r => row_name r ∉ @nil string) rows = rows.
Proof.
  induction rows as [| r rows IH]; [done |].
  rewrite filter_cons_True by apply not_elem_of_nil. by rewrite IH.
Qed.

(** [_load] never touches [_editable_caches]. *)
Lemma _load_caches st :
  _editable_caches (snd (_load py registry django_settings st))
  = _editable_caches st.
Proof.
  unfold _load.
  destruct (load_rows _ _ _ _ _) as [acc|e]; [| done].
  by destruct (removed_settings acc), (conflicting_settings acc).
Qed.

(** [_load] always starts with a scan of the table. *)
Lemma _load_log st :
  exists rest,
    db_log (snd (_load py registry django_settings st))
    = db_log st ++ DbScan :: rest.
Proof.
  unfold _load.
  destruct (load_rows _ _ _ _ _) as [acc|e]; [| by exists []].
  destruct (removed_settings acc) as [| n names],
           (conflicting_settings acc); simpl; eexists;
    by rewrite <- ?app_assoc.
Qed.

(** A load over a table whose conversions all return. *)
Lemma _load_convertible st :
  forallb (convertible py registry) (db_rows st) = true ->
  exists acc st',
    load_rows py registry django_settings empty_acc (db_rows st) = Ok acc
    /\ _load py registry django_settings st = (Ok (new_cache acc), st')
    /\ _editable_caches st' = _editable_caches st
    /\ db_rows st'
       = filter (fun r => is_Some (registry !! row_name r)) (db_rows st)
    /\ db_log st'
       = db_log st ++ DbScan ::
           match unregistered_names registry (db_rows st) with
           | [] => []
           | names => [DbDelete names]
           end
    /\ warnings st'
       = warnings st ++
           match conflicting_names py registry django_settings (db_rows st) with
           | [] => []
           | names => [conflict_warning names]
           end.
Proof.
  intros Hall.
  destruct (load_rows_convertible py registry django_settings
              (db_rows st) empty_acc Hall) as (acc & Hloop & Hrem & Hconf).
  simpl in Hrem, Hconf.
  exists acc. eexists. split; [exact Hloop |].
  unfold _load. simpl. rewrite Hloop.
  split; [reflexivity |].
  rewrite <- delete_unregistered, <- Hrem, <- Hconf.
  destruct (removed_settings acc) as [| n names],
           (conflicting_settings acc) as [| c cs]; simpl;
    rewrite ?filter_not_in_nil, ?app_nil_r, <- ?app_assoc; by repeat split.
Qed.

(** A load over a table with a conversion that lets an exception
    escape: it raises after the scan, and the scan is all it leaves. *)
Lemma _load_aborts st :
  forallb (convertible py registry) (db_rows st) = false ->
  exists e,
    caught_by_ValueError e = false
    /\ _load py registry django_settings st = (Raise e, log_query st DbScan).
Proof.
  intros Hall.
  destruct (load_rows_raises py registry django_settings (db_rows st)
              empty_acc Hall) as (e & Hloop & He).
  exists e. split; [done |]. unfold _load. simpl. by rewrite Hloop.
Qed.

(** The names in the conflict list are exactly the names of the rows
    that are registered, defined by the framework settings, and whose
    converted value differs from the registered default. *)
Lemma conflicting_names_spec rows name :
  name ∈ conflicting_names py registry django_settings rows
  <-> exists row d v,
        row ∈ rows /\ row_name row = name
        /\ registry !! name = Some d
        /\ is_Some (django_settings !! name)
        /\ convert py d (row_value row) = Ok v
        /\ py_ne py v (setting_default d) = true.
Proof.
  unfold conflicting_names. rewrite list_elem_of_fmap. split.
  - intros (row & -> & [Hc Hin]%list_elem_of_filter).
    unfold in_conflict in Hc.
    destruct (registry !! row_name row) as [d|] eqn:Hreg; [| done].
    destruct (convert py d (row_value row)) as [v|] eqn:Hconv; [| done].
    apply Is_true_true, andb_prop in Hc as [Hdj Hne].
    apply bool_decide_eq_true in Hdj.
    by exists row, d, v.
  - intros (row & d & v & Hin & <- & Hreg & Hdj & Hconv & Hne).
    exists row. split; [done |]. apply list_elem_of_filter. split; [| done].
    unfold in_conflict. rewrite Hreg, Hconv, Hne.
    by rewrite bool_decide_eq_true_2.
Qed.

(** C2, as the code has it: in a load that runs to the end (every
    conversion returns), no name the framework settings define, in
    particular no such row's name, is stored in the returned cache, so
    reading the name with that cache in place yields the framework value;
    the conflict list holds exactly the names of the registered rows
    whose name the framework settings define and whose converted value
    differs from the registered default; and the load emits exactly one
    warning, whose text lists the whole conflict list separated by
    commas, when that list is not empty (and none when it is empty).  A
    load that a conversion aborts returns no cache and emits no
    warning. *)
Theorem load_framework_value_wins st :
  (forallb (convertible py registry) (db_rows st) = true ->
   exists cache st',
     _load py registry django_settings st = (Ok cache, st')
     /\ (forall row, row ∈ db_rows st ->
           is_Some (django_settings !! row_name row) ->
           cache !! row_name row = None)
     /\ (forall row v ambient st2, row ∈ db_rows st ->
           django_settings !! row_name row = Some v ->
           _editable_caches st2 !! _current_request ambient = Some cache ->
           __getattr__ py registry django_settings ambient (row_name row) st2
           = (Ok v, st2))
     /\ (forall name,
           name ∈ conflicting_names py registry django_settings (db_rows st)
           <-> exists row d v,
                 row ∈ db_rows st /\ row_name row = name
                 /\ registry !! name = Some d
                 /\ is_Some (django_settings !! name)
                 /\ convert py d (row_value row) = Ok v
                 /\ py_ne py v (setting_default d) = true)
     /\ warnings st'
        = warnings st ++
            match conflicting_names py registry django_settings (db_rows st) with
            | [] => []
            | names =>
                ["These settings are defined in both settings.py and the database: "
                 +:+ String.concat ", " names
                 +:+ ". The settings.py values will be used."]
            end)
  /\ (forallb (convertible py registry) (db_rows st) = false ->
      exists e st',
        _load py registry django_settings st = (Raise e, st')
        /\ caught_by_ValueError e = false
        /\ warnings st' = warnings st).
Proof.
  split.
  - intros Hall.
    destruct (_load_convertible st Hall)
      as (acc & st' & Hloop & Hload & _ & _ & _ & Hwarn).
    assert (forall name, is_Some (django_settings !! name) ->
                         new_cache acc !! name = None) as Hcache.
    { intros name Hdj.
      by rewrite (load_rows_cache_frame py registry django_settings
                    (db_rows st) empty_acc acc name Hloop). }
    exists (new_cache acc), st'. split; [exact Hload |].
    split; [intros row _; apply Hcache |].
    split; [| split; [apply conflicting_names_spec | exact Hwarn]].
    intros row v ambient st2 _ Hdj Hentry.
    unfold __getattr__, getattr, getattr_default, _get_editable.
    rewrite Hdj, Hentry, (Hcache (row_name row)) by eauto.
    destruct (registry !! row_name row) as [d|]; [| done].
    by destruct (setting_editable d).
  - intros Hall. destruct (_load_aborts st Hall) as (e & He & Hload).
    by exists e, (log_query st DbScan).
Qed.

(** C9, as the code has it: in a load that runs to the end, a row whose
    name is not registered leaves nothing in the returned cache; after
    the scan one delete query names exactly the unregistered rows' names,
    and the table keeps exactly the rows whose name is registered.
    Unregistered rows never make the load raise.  A load that a
    conversion aborts deletes nothing: the scan is its only query and
    the table is left as it was. *)
Theorem load_deletes_unregistered st :
  (forallb (convertible py registry) (db_rows st) = true ->
   exists cache st',
     _load py registry django_settings st = (Ok cache, st')
     /\ (forall name, registry !! name = None -> cache !! name = None)
     /\ db_rows st'
        = filter (fun r => is_Some (registry !! row_name r)) (db_rows st)
     /\ (forall row, row ∈ db_rows st -> registry !! row_name row = None ->
           convertible py registry row = true
           /\ row_name row ∈ unregistered_names registry (db_rows st)
           /\ row ∉ db_rows st')
     /\ db_log st'
        = db_log st ++ DbScan ::
            match unregistered_names registry (db_rows st) with
            | [] => []
            | names => [DbDelete names]
            end)
  /\ (forallb (convertible py registry) (db_rows st) = false ->
      exists e st',
        _load py registry django_settings st = (Raise e, st')
        /\ caught_by_ValueError e = false
        /\ db_rows st' = db_rows st
        /\ db_log st' = db_log st ++ [DbScan]).
Proof.
  split.
  - intros Hall.
    destruct (_load_convertible st Hall)
      as (acc & st' & Hloop & Hload & _ & Hrows & Hlog & _).
    exists (new_cache acc), st'. split; [exact Hload |].
    split; [| split; [exact Hrows | split; [| exact Hlog]]].
    + intros name Hreg.
      rewrite (load_rows_cache_frame py registry django_settings
                 (db_rows st) empty_acc acc name Hloop); [done |].
      intros row d _ _ Hd. congruence.
    + intros row Hin Hreg. split; [| split].
      * unfold convertible. by rewrite Hreg.
      * unfold unregistered_names. apply list_elem_of_fmap_2.
        by apply list_elem_of_filter.
      * rewrite Hrows. intros [[d Hd] _]%list_elem_of_filter. congruence.
  - intros Hall. destruct (_load_aborts st Hall) as (e & He & Hload).
    by exists e, (log_query st DbScan).
Qed.

(** C4, as the code has it: when the conversion of a registered row
    raises [ValueError] (or a subclass of it), the load goes on with the
    registered default in place of the converted value: if no other row
    lets an exception escape, the load returns, and the cache holds the
    default under that name whenever the framework settings do not
    define the name and no later row carries it. *)
Theorem load_value_error_uses_default st pre row post d e :
  db_rows st = pre ++ row :: post ->
  registry !! row_name row = Some d ->
  type_fn py (setting_type d) (row_value row) = Raise e ->
  caught_by_ValueError e = true ->
  forallb (convertible py registry) (pre ++ post) = true ->
  row_name row ∉ row_name <$> post ->
  convert py d (row_value row) = Ok (setting_default d)
  /\ exists cache st',
       _load py registry django_settings st = (Ok cache, st')
       /\ cache !! row_name row
          = match django_settings !! row_name row with
            | Some _ => None
            | None => Some (setting_default d)
            end.
Proof.
  intros Hrows Hreg Hfail Hcaught Hothers Hlast.
  assert (convert py d (row_value row) = Ok (setting_default d)) as Hconv.
  { unfold convert. by rewrite Hfail, Hcaught. }
  split; [exact Hconv |].
  assert (forallb (convertible py registry) (db_rows st) = true) as Hall.
  { rewrite Hrows. rewrite forallb_app in Hothers |- *. simpl.
    apply andb_prop in Hothers as [-> ->]. simpl.
    unfold convertible. by rewrite Hreg, Hconv. }
  destruct (_load_convertible st Hall) as (acc & st' & Hloop & Hload & _).
  exists (new_cache acc), st'. split; [exact Hload |].
  destruct (django_settings !! row_name row) as [w|] eqn:Hdj.
  - by rewrite (load_rows_cache_frame py registry django_settings
                  (db_rows st) empty_acc acc (row_name row) Hloop).
  - rewrite Hrows in Hloop. eapply load_rows_cache_last; eauto.
Qed.

End LoadClaims.

(** * Properties of the resolver *)

Section ResolverClaims.

Context (py : PyRuntime).
Context (registry : gmap string Setting).
Context (django_settings : gmap string value).

(** A cache hit returns the stored mapping and changes nothing. *)
Lemma _get_editable_hit req st c :
  _editable_caches st !! req = Some c ->
  _get_editable py registry django_settings req st = (Ok c, st).
Proof. intros Hentry. unfold _get_editable. by rewrite Hentry. Qed.

(** [_get_editable] leaves the existing entries as they are. *)
Lemma _get_editable_keeps_entry req st r c :
  _editable_caches st !! r = Some c ->
  _editable_caches (snd (_get_editable py registry django_settings req st)) !! r
  = Some c.
Proof.
  intros Hentry. unfold _get_editable.
  destruct (_editable_caches st !! req) as [c'|] eqn:Hreq; [done |].
  pose proof (_load_caches py registry django_settings st) as Hcaches.
  destruct (_load py registry django_settings st) as [[cache|e] st1];
    simpl in *; rewrite Hcaches; [| done].
  rewrite lookup_insert_ne; [done |]. congruence.
Qed.

(** A miss runs [_load], whose first query is a scan. *)
Lemma _get_editable_miss_scans req st :
  _editable_caches st !! req = None ->
  exists rest,
    db_log (snd (_get_editable py registry django_settings req st))
    = db_log st ++ DbScan :: rest.
Proof.
  intros Hentry. unfold _get_editable. rewrite Hentry.
  destruct (_load_log py registry django_settings st) as [rest Hlog].
  exists rest.
  by destruct (_load py registry django_settings st) as [[cache|e] st1].
Qed.

(** With the entry of the current request in place, an attribute read
    is answered from it and the state is left as it was. *)
Lemma getattr_cached ambient name st c :
  _editable_caches st !! _current_request ambient = Some c ->
  __getattr__ py registry django_settings ambient name st
  = (resolve_with registry django_settings c name, st).
Proof.
  intros Hentry. unfold __getattr__, resolve_with.
  destruct (registry !! name) as [d|]; [| done].
  destruct (setting_editable d); [| done]. simpl.
  rewrite (_get_editable_hit _ _ _ Hentry).
  by destruct (c !! name).
Qed.

Lemma getattr_keeps_entry ambient name st r c :
  _editable_caches st !! r = Some c ->
  _editable_caches
    (snd (__getattr__ py registry django_settings ambient name st)) !! r
  = Some c.
Proof.
  intros Hentry. unfold __getattr__.
  destruct (registry !! name) as [d|]; [| done].
  destruct (setting_editable d); [| done]. simpl.
  pose proof (_get_editable_keeps_entry (_current_request ambient) st r c Hentry)
    as Hkeep.
  destruct (_get_editable _ _ _ _ _) as [[cache|e] st1]; [| done].
  by destruct (cache !! name).
Qed.

Lemma run_op_keeps_entry o st r c :
  keeps_cache_of r o ->
  _editable_caches st !! r = Some c ->
  _editable_caches (run_op py registry django_settings o st) !! r = Some c.
Proof.
  intros Hkeep Hentry. destruct o as [ambient name | ambient | rows]; simpl.
  - by apply getattr_keeps_entry.
  - by rewrite lookup_delete_ne.
  - done.
Qed.

(** An entry of [_editable_caches] stays as it is through every run of
    operations none of which clears it. *)
Lemma run_keeps_entry ops : forall st r c,
  Forall (keeps_cache_of r) ops ->
  _editable_caches st !! r = Some c ->
  _editable_caches (run py registry django_settings ops st) !! r = Some c.
Proof.
  unfold run. induction ops as [| o ops IH]; intros st r c Hall Hentry; [done |].
  inversion Hall as [| ? ? Hkeep Hrest]; subst. simpl.
  apply IH; [done |]. by apply run_op_keeps_entry.
Qed.

(** An editable read under an identity without an entry, over a table
    whose conversions all return. *)
Lemma getattr_fresh ambient name st d :
  _editable_caches st !! _current_request ambient = None ->
  registry !! name = Some d ->
  setting_editable d = true ->
  forallb (convertible py registry) (db_rows st) = true ->
  exists acc st1,
    load_rows py registry django_settings empty_acc (db_rows st) = Ok acc
    /\ _load py registry django_settings st = (Ok (new_cache acc), st1)
    /\ __getattr__ py registry django_settings ambient name st
       = (Ok match new_cache acc !! name with
             | Some v => v
             | None => getattr_default django_settings name (setting_default d)
             end,
          set_caches st1 (<[_current_request ambient := new_cache acc]>
                            (_editable_caches st1))).
Proof.
  intros Hentry Hreg Hed Hall.
  destruct (_load_convertible py registry django_settings st Hall)
    as (acc & st1 & Hloop & Hload & _).
  exists acc, st1. split; [done |]. split; [done |].
  unfold __getattr__, _get_editable. rewrite Hreg, Hed, Hentry, Hload. simpl.
  by destruct (new_cache acc !! name).
Qed.

(** With the entry of [r] in place, reads under [r], clears under other
    identities and writes to the table send no query and leave the
    entry as it is. *)
Lemma run_under_identity ops : forall st r c,
  Forall (under_identity r) ops ->
  _editable_caches st !! r = Some c ->
  _editable_caches (run py registry django_settings ops st) !! r = Some c
  /\ db_log (run py registry django_settings ops st) = db_log st.
Proof.
  unfold run. induction ops as [| o ops IH]; intros st r c Hall Hentry; [done |].
  inversion Hall as [| ? ? Ho Hrest]; subst. simpl.
  destruct o as [ambient name | ambient | rows]; simpl in *.
  - rewrite <- Ho in Hentry.
    rewrite (getattr_cached ambient name st c Hentry). simpl.
    rewrite Ho in Hentry. by apply IH.
  - destruct (IH (clear_cache ambient st) r c Hrest) as [Hc Hl]; [| done].
    unfold clear_cache. simpl. by rewrite lookup_delete_ne.
  - by destruct (IH (set_rows st rows) r c Hrest) as [Hc Hl].
Qed.


(** C3, as the code has it: the request identity is the ambient request,
    or [NULL_REQUEST] without one.  While no [clear_cache] runs under an
    identity, an entry present for it stays the same mapping through
    every other operation, changes of the table included, and every
    attribute read under that identity is answered from it with no query
    and no change of state.  An editable read under an identity that has
    no entry starts a scan; when that load runs to the end, its mapping
    is stored as the entry of the identity, and however many reads under
    that identity, clears under other identities and writes to the table
    follow, the entry stays and no further query is sent: the scan has
    run exactly once.  When a conversion aborts that load, the read
    raises and no entry is stored.  [clear_cache] removes the entry of
    the identity it runs under. *)
Theorem cache_entry_served_until_cleared :
  (forall id, _current_request (Some id) = Request id)
  /\ _current_request None = NULL_REQUEST
  /\ (forall st r c ops ambient name,
        _editable_caches st !! r = Some c ->
        Forall (keeps_cache_of r) ops ->
        _current_request ambient = r ->
        let st' := run py registry django_settings ops st in
        _editable_caches st' !! r = Some c
        /\ __getattr__ py registry django_settings ambient name st'
           = (resolve_with registry django_settings c name, st'))
  /\ (forall st ambient name d,
        _editable_caches st !! _current_request ambient = None ->
        registry !! name = Some d ->
        setting_editable d = true ->
        exists rest,
          db_log (snd (__getattr__ py registry django_settings ambient name st))
          = db_log st ++ DbScan :: rest)
  /\ (forall st ambient name d ops,
        _editable_caches st !! _current_request ambient = None ->
        registry !! name = Some d ->
        setting_editable d = true ->
        forallb (convertible py registry) (db_rows st) = true ->
        Forall (under_identity (_current_request ambient)) ops ->
        exists cache st1,
          _load py registry django_settings st = (Ok cache, st1)
          /\ let st' :=
               snd (__getattr__ py registry django_settings ambient name st) in
             _editable_caches st' !! _current_request ambient = Some cache
             /\ db_log st'
                = db_log st ++ DbScan ::
                    match unregistered_names registry (db_rows st) with
                    | [] => []
                    | gone => [DbDelete gone]
                    end
             /\ _editable_caches (run py registry django_settings ops st')
                  !! _current_request ambient = Some cache
             /\ db_log (run py registry django_settings ops st') = db_log st')
  /\ (forall st ambient name d,
        _editable_caches st !! _current_request ambient = None ->
        registry !! name = Some d ->
        setting_editable d = true ->
        forallb (convertible py registry) (db_rows st) = false ->
        exists e,
          __getattr__ py registry django_settings ambient name st
          = (Raise e, log_query st DbScan)
          /\ _editable_caches (log_query st DbScan) !! _current_request ambient
             = None)
  /\ (forall st ambient,
        _editable_caches (clear_cache ambient st) !! _current_request ambient
        = None).
Proof.
  split; [done |]. split; [done |].
  split; [| split; [| split; [| split]]].
  - intros st r c ops ambient name Hentry Hops <- st'.
    assert (_editable_caches st' !! _current_request ambient = Some c) as Hst'
      by by apply run_keeps_entry.
    split; [exact Hst' |]. by apply getattr_cached.
  - intros st ambient name d Hentry Hreg Hed.
    destruct (_get_editable_miss_scans _ st Hentry) as [rest Hlog].
    exists rest. unfold __getattr__. rewrite Hreg, Hed. simpl.
    destruct (_get_editable _ _ _ _ _) as [[cache|e] st1]; [| done].
    by destruct (cache !! name).
  - intros st ambient name d ops Hentry Hreg Hed Hall Hops.
    destruct (getattr_fresh ambient name st d Hentry Hreg Hed Hall)
      as (acc & st1 & _ & Hload & Hread).
    destruct (_load_convertible py registry django_settings st Hall)
      as (acc' & st1' & _ & Hload' & _ & _ & Hlog & _).
    rewrite Hload in Hload'. injection Hload' as _ <-.
    exists (new_cache acc), st1. split; [exact Hload |].
    rewrite Hread. cbn [snd].
    assert (_editable_caches
              (set_caches st1 (<[_current_request ambient := new_cache acc]>
                                 (_editable_caches st1)))
              !! _current_request ambient = Some (new_cache acc)) as Hstored
      by apply lookup_insert_eq.
    destruct (run_under_identity ops _ _ _ Hops Hstored) as [Hkept Hquiet].
    by repeat split.
  - intros st ambient name d Hentry Hreg Hed Hall.
    destruct (_load_aborts py registry django_settings st Hall)
      as (e & _ & Hload).
    exists e. split; [| done].
    unfold __getattr__, _get_editable. by rewrite Hreg, Hed, Hentry, Hload.
  - intros st ambient. apply lookup_delete_eq.
Qed.


End ResolverClaims.

(** * The model evaluated on the sample site *)

(** The registered descriptors. *)
Example sample_registry_entries :
  (setting_editable <$> sample_registry !! "ITEMS_PER_PAGE") = Some true
  /\ (setting_type <$> sample_registry !! "ITEMS_PER_PAGE") = Some T_int
  /\ (setting_editable <$> sample_registry !! "SITE_TITLE") = Some false
  /\ (setting_type <$> sample_registry !! "OLD_FLAG") = Some T_NoneType.
Proof. vm_compute. by repeat split. Qed.

(** The scenario of a setting edited in the admin during a request:
    the first read of request 1 scans an empty table and gives the
    default; the row written afterwards is not seen by that request
    until [clear_cache]; a read without a request never scans. *)
Example items_per_page_scenario :
  let read := __getattr__ sample_runtime sample_registry sample_django in
  let step := run sample_runtime sample_registry sample_django in
  let st1 := step [Access (Some 1%positive) "ITEMS_PER_PAGE"] (Settings_init []) in
  let st2 := step [DbWrite [row "ITEMS_PER_PAGE" "25"]] st1 in
  let st3 := step [ClearCache (Some 1%positive)] st2 in
  fst (read (Some 1%positive) "ITEMS_PER_PAGE" (Settings_init [])) = Ok (VInt 10)
  /\ db_log st1 = [DbScan]
  /\ read (Some 1%positive) "ITEMS_PER_PAGE" st2 = (Ok (VInt 10), st2)
  /\ fst (read (Some 1%positive) "ITEMS_PER_PAGE" st3) = Ok (VInt 25)
  /\ db_log (snd (read (Some 1%positive) "ITEMS_PER_PAGE" st3)) = [DbScan; DbScan]
  /\ read None "ITEMS_PER_PAGE" st2 = (Ok (VInt 10), st2)
  /\ fst (read None "NO_SUCH_SETTING" st2) = Raise AttributeError.
Proof. vm_compute. by repeat split. Qed.

Lemma load_framework_value_wins_witness :
  let st := Settings_init [row "SITE_TITLE" "Other"; row "ITEMS_PER_PAGE" "25";
                           row "SITE_TITLE" "Another"] in
  exists cache st',
    _load sample_runtime sample_registry sample_django st = (Ok cache, st')
    /\ cache !! "SITE_TITLE" = None
    /\ warnings st'
       = ["These settings are defined in both settings.py and the database: SITE_TITLE, SITE_TITLE. The settings.py values will be used."].
Proof.
  intros st.
  destruct (load_framework_value_wins sample_runtime sample_registry
              sample_django st) as [Hdone _].
  destruct Hdone as (cache & st' & Hload & Hcache & _ & _ & Hwarn).
  - vm_compute. reflexivity.
  - exists cache, st'. split; [exact Hload |]. split.
    + apply (Hcache (row "SITE_TITLE" "Other")).
      * left.
      * vm_compute. eauto.
    + exact Hwarn.
Defined.

(** C2 as stated fails: the row of [SITE_TITLE] carries a value that
    differs from the registered default and the framework settings
    define the name, but the conversion of the row of [OLD_FLAG] raises
    [TypeError]; the load returns no cache and emits no warning. *)
Lemma aborted_load_emits_no_warning :
  let st := Settings_init [row "SITE_TITLE" "Other"; row "OLD_FLAG" "1"] in
  sample_django !! "SITE_TITLE" = Some (VStr "My site")
  /\ in_conflict sample_runtime sample_registry sample_django
       (row "SITE_TITLE" "Other") = true
  /\ _load sample_runtime sample_registry sample_django st
     = (Raise TypeError, log_query st DbScan)
  /\ warnings (snd (_load sample_runtime sample_registry sample_django st)) = [].
Proof. intros st. by vm_compute. Qed.

Lemma load_deletes_unregistered_witness :
  let st := Settings_init [row "GONE" "x"; row "ITEMS_PER_PAGE" "25"] in
  exists cache st',
    _load sample_runtime sample_registry sample_django st = (Ok cache, st')
    /\ cache !! "GONE" = None
    /\ db_rows st' = [row "ITEMS_PER_PAGE" "25"]
    /\ db_log st' = [DbScan; DbDelete ["GONE"]].
Proof.
  intros st.
  destruct (load_deletes_unregistered sample_runtime sample_registry
              sample_django st) as [Hdone _].
  destruct Hdone as (cache & st' & Hload & Hcache & Hrows & _ & Hlog).
  - vm_compute. reflexivity.
  - exists cache, st'. split; [exact Hload |]. split; [| split].
    + apply Hcache. vm_compute. reflexivity.
    + exact Hrows.
    + exact Hlog.
Defined.

(** C9 as stated fails: [GONE] is not registered, but the conversion of
    the row of [OLD_FLAG] raises [TypeError]; the load raises, its only
    query is the scan, and the row of [GONE] is still in the table. *)
Lemma aborted_load_deletes_nothing :
  let st := Settings_init [row "OLD_FLAG" "1"; row "GONE" "x"] in
  let st' := snd (_load sample_runtime sample_registry sample_django st) in
  sample_registry !! "GONE" = None
  /\ fst (_load sample_runtime sample_registry sample_django st) = Raise TypeError
  /\ db_rows st' = [row "OLD_FLAG" "1"; row "GONE" "x"]
  /\ db_log st' = [DbScan].
Proof. intros st st'. by vm_compute. Qed.

Lemma load_value_error_uses_default_witness :
  let st := Settings_init [row "ITEMS_PER_PAGE" "abc"] in
  exists cache st',
    _load sample_runtime sample_registry sample_django st = (Ok cache, st')
    /\ cache !! "ITEMS_PER_PAGE" = Some (VInt 10).
Proof.
  intros st.
  destruct (load_value_error_uses_default sample_runtime sample_registry
              sample_django st [] (row "ITEMS_PER_PAGE" "abc") []
              {| setting_name := "ITEMS_PER_PAGE";
                 setting_label := VStr "Items Per Page";
                 setting_editable := true; setting_description := VNone;
                 setting_default := VInt 10; setting_choices := VNone;
                 setting_type := T_int; setting_translatable := false |}
              ValueError)
    as (_ & cache & st' & Hload & Hcache).
  - reflexivity.
  - vm_compute. reflexivity.
  - reflexivity.
  - reflexivity.
  - reflexivity.
  - apply not_elem_of_nil.
  - exists cache, st'. split; [exact Hload | exact Hcache].
Defined.

(** C4 as stated fails: [OLD_FLAG] is registered with the class
    [NoneType], the conversion of its row raises [TypeError], and the
    load raises [TypeError] instead of using the registered default. *)
Lemma load_type_error_escapes :
  let st := Settings_init [row "OLD_FLAG" "1"; row "ITEMS_PER_PAGE" "25"] in
  (setting_type <$> sample_registry !! "OLD_FLAG") = Some T_NoneType
  /\ type_fn sample_runtime T_NoneType "1" = Raise TypeError
  /\ ~ (exists cache st',
          _load sample_runtime sample_registry sample_django st = (Ok cache, st'))
  /\ fst (_load sample_runtime sample_registry sample_django st) = Raise TypeError
  /\ fst (__getattr__ sample_runtime sample_registry sample_django
            (Some 1%positive) "ITEMS_PER_PAGE" st) = Raise TypeError.
Proof.
  intros st. split; [by vm_compute |]. split; [reflexivity |].
  split; [| split; by vm_compute].
  intros (cache & st' & Hload).
  apply (f_equal fst) in Hload. vm_compute in Hload. discriminate.
Qed.

Lemma cache_entry_served_until_cleared_witness :
  let step := run sample_runtime sample_registry sample_django in
  let st := step [Access (Some 1%positive) "ITEMS_PER_PAGE"] (Settings_init []) in
  let st' := step [DbWrite [row "ITEMS_PER_PAGE" "25"];
                   Access (Some 2%positive) "ITEMS_PER_PAGE";
                   ClearCache (Some 2%positive)] st in
  __getattr__ sample_runtime sample_registry sample_django
    (Some 1%positive) "ITEMS_PER_PAGE" st' = (Ok (VInt 10), st')
  /\ (exists rest,
        db_log (snd (__getattr__ sample_runtime sample_registry sample_django
                       (Some 1%positive) "ITEMS_PER_PAGE" (Settings_init [])))
        = DbScan :: rest)
  /\ db_log (step [DbWrite [row "ITEMS_PER_PAGE" "25"];
                   Access (Some 1%positive) "ITEMS_PER_PAGE";
                   ClearCache (Some 2%positive);
                   Access (Some 1%positive) "SITE_TITLE"] st)
     = [DbScan].
Proof.
  intros step st st'.
  destruct (cache_entry_served_until_cleared sample_runtime sample_registry
              sample_django) as (_ & _ & Hserved & Hscan & Honce & _).
  split; [| split].
  - destruct (Hserved st (Request 1) ∅
                [DbWrite [row "ITEMS_PER_PAGE" "25"];
                 Access (Some 2%positive) "ITEMS_PER_PAGE";
                 ClearCache (Some 2%positive)]
                (Some 1%positive) "ITEMS_PER_PAGE") as [_ Hread].
    + vm_compute. reflexivity.
    + repeat constructor. simpl. discriminate.
    + reflexivity.
    + exact Hread.
  - apply (Hscan (Settings_init []) (Some 1%positive) "ITEMS_PER_PAGE"
             sample_items_per_page).
    + vm_compute. reflexivity.
    + vm_compute. reflexivity.
    + reflexivity.
  - destruct (Honce (Settings_init []) (Some 1%positive) "ITEMS_PER_PAGE"
                sample_items_per_page
                [DbWrite [row "ITEMS_PER_PAGE" "25"];
                 Access (Some 1%positive) "ITEMS_PER_PAGE";
                 ClearCache (Some 2%positive);
                 Access (Some 1%positive) "SITE_TITLE"])
      as (cache & st1 & _ & _ & Hlog & _ & Hquiet).
    + vm_compute. reflexivity.
    + vm_compute. reflexivity.
    + reflexivity.
    + vm_compute. reflexivity.
    + repeat constructor. simpl. discriminate.
    + etransitivity; [exact Hquiet |]. rewrite Hlog. reflexivity.
Defined.

(** C3 as stated fails, twice.  After request 1 has loaded its cache, an
    editable read without an ambient request runs under another
    identity, [NULL_REQUEST], and yet issues no scan: the log still holds
    the single scan of request 1, and the row in the table is not seen.
    And when a conversion aborts the load, two reads under the one
    identity of request 1, with no [clear_cache] in between, scan the
    table twice. *)
Lemma scans_not_once_per_identity :
  let read := __getattr__ sample_runtime sample_registry sample_django in
  let st0 := Settings_init [row "ITEMS_PER_PAGE" "25"] in
  let st1 := snd (read (Some 1%positive) "ITEMS_PER_PAGE" st0) in
  let st2 := snd (read None "ITEMS_PER_PAGE" st1) in
  let sa0 := Settings_init [row "OLD_FLAG" "1"] in
  let sa1 := snd (read (Some 1%positive) "ITEMS_PER_PAGE" sa0) in
  let sa2 := snd (read (Some 1%positive) "ITEMS_PER_PAGE" sa1) in
  (_current_request None <> _current_request (Some 1%positive)
   /\ (setting_editable <$> sample_registry !! "ITEMS_PER_PAGE") = Some true
   /\ db_log st1 = [DbScan]
   /\ db_log st2 = [DbScan]
   /\ fst (read (Some 1%positive) "ITEMS_PER_PAGE" st0) = Ok (VInt 25)
   /\ fst (read None "ITEMS_PER_PAGE" st1) = Ok (VInt 10))
  /\ (fst (read (Some 1%positive) "ITEMS_PER_PAGE" sa0) = Raise TypeError
      /\ fst (read (Some 1%positive) "ITEMS_PER_PAGE" sa1) = Raise TypeError
      /\ db_log sa1 = [DbScan]
      /\ db_log sa2 = [DbScan; DbScan]).
Proof.
  intros read st0 st1 st2 sa0 sa1 sa2.
  split; [split; [discriminate |] |]; by vm_compute.
Qed.




(** * Further properties of the registry *)

Section RegistryFacts.

Context (py : PyRuntime).
Context (django_settings : gmap string value).

(** A call that raises leaves the registry as it was, whatever its
    arguments: the two argument checks and a failing [+=] all come
    before any store. *)
Theorem register_setting_raise_keeps_registry name label editable description
    default choices append translatable (reg reg' : gmap string Setting) e :
  register_setting py django_settings name label editable description default
    choices append translatable reg = (Raise e, reg') ->
  reg' = reg.
Proof.
  unfold register_setting. destruct name as [name|]; [| by intros [= _ <-]].
  destruct (editable && is_None default); [by intros [= _ <-] |].
  destruct (if append then reg !! name else None) as [d|]; [| done].
  destruct (py_iadd py (setting_default d) default); [done |].
  by intros [= _ <-].
Qed.

(** A call that does not extend a list in place touches no descriptor
    but the one of its own name, and removes no name from the registry.
    (An append onto a list default is left out: the source extends the
    list object itself, which another descriptor may hold as well.) *)
Theorem register_setting_frame name label editable description default
    choices append translatable (reg : gmap string Setting) other :
  name <> Some other ->
  extends_list_in_place name append reg = false ->
  let reg' := snd (register_setting py django_settings name label editable
                     description default choices append translatable reg) in
  reg' !! other = reg !! other /\ dom reg ⊆ dom reg'.
Proof.
  intros Hother _. unfold register_setting.
  destruct name as [name|]; [| done].
  assert (name <> other) as Hne by congruence.
  destruct (editable && is_None default); [done |].
  destruct (if append then reg !! name else None) as [d|].
  - destruct (py_iadd py (setting_default d) default); simpl; [| done].
    split; [by apply lookup_insert_ne | apply dom_insert_subseteq].
  - simpl. split; [by apply lookup_insert_ne | apply dom_insert_subseteq].
Qed.

(** One call, any arguments, any outcome. *)
Lemma registry_ok_preserved name label editable description
    default choices append translatable (reg : gmap string Setting) :
  registry_ok django_settings reg ->
  registry_ok django_settings
    (snd (register_setting py django_settings name label editable description
            default choices append translatable reg)).
Proof.
  intros Hok. unfold register_setting.
  destruct name as [name|]; [| done].
  destruct (editable && is_None default); [done |].
  destruct (if append then reg !! name else None) as [d|] eqn:Hpath.
  - assert (reg !! name = Some d) as Hd by by destruct append.
    destruct (py_iadd py (setting_default d) default); simpl; [| done].
    intros k d'. destruct (decide (name = k)) as [<- | Hne].
    + rewrite lookup_insert_eq. intros [= <-]. simpl. by apply Hok.
    + rewrite lookup_insert_ne by done. apply Hok.
  - simpl. intros k d'. destruct (decide (name = k)) as [<- | Hne].
    + rewrite lookup_insert_eq. intros [= <-]. simpl. split; [done |].
      unfold hasattr. case_bool_decide as Hdj; [done |].
      intros _. by apply eq_None_not_Some.
    + rewrite lookup_insert_ne by done. apply Hok.
Qed.

(** Every call keeps [registry_ok], whatever its arguments and whether it
    returns or raises: descriptors stay under their own name, and no
    descriptor is editable while the framework settings define its name. *)
Theorem register_setting_keeps_registry_ok name label editable description
    default choices append translatable (reg : gmap string Setting) :
  registry_ok django_settings reg ->
  registry_ok django_settings
    (snd (register_setting py django_settings name label editable description
            default choices append translatable reg)).
Proof. apply registry_ok_preserved. Qed.

Lemma registry_ok_empty dj : registry_ok dj ∅.
Proof. intros k d. by rewrite lookup_empty. Qed.

(** With a registry that satisfies [registry_ok], reading a name the
    framework settings define gives the framework value and leaves the
    state untouched: no cache is built and no query is sent, whatever
    the request and whatever the table holds. *)
Theorem framework_name_read_is_pure registry ambient name v st :
  registry_ok django_settings registry ->
  django_settings !! name = Some v ->
  __getattr__ py registry django_settings ambient name st = (Ok v, st).
Proof.
  intros Hok Hdj. unfold __getattr__, getattr, getattr_default.
  rewrite Hdj. destruct (registry !! name) as [d|] eqn:Hreg; [| done].
  destruct (setting_editable d) eqn:Hed; [| done].
  destruct (Hok name d Hreg) as [_ Hnone].
  rewrite Hnone in Hdj by done. discriminate.
Qed.

(** Two accepted plain registrations of one name: the second replaces
    the descriptor of the first as a whole, as if the first had never
    been made. *)
Theorem register_setting_last_wins name (reg : gmap string Setting)
    label1 editable1 description1 default1 choices1 translatable1
    label2 editable2 description2 default2 choices2 translatable2 :
  editable1 && is_None default1 = false ->
  editable2 && is_None default2 = false ->
  snd (register_setting py django_settings (Some name) label2 editable2
         description2 default2 choices2 false translatable2
         (snd (register_setting py django_settings (Some name) label1 editable1
                 description1 default1 choices1 false translatable1 reg)))
  = snd (register_setting py django_settings (Some name) label2 editable2
           description2 default2 choices2 false translatable2 reg).
Proof.
  intros Hvalid1 Hvalid2.
  rewrite !(register_setting_stores py django_settings name) by auto.
  simpl. apply insert_insert_eq.
Qed.

Lemma string_app_assoc (a b c : string) : (a +:+ b) +:+ c = a +:+ (b +:+ c).
Proof.
  induction a as [| x a IH]; [done |].
  change (String x ((a +:+ b) +:+ c) = String x (a +:+ (b +:+ c))).
  by rewrite IH.
Qed.

Lemma concatenation_assoc old b c v1 v2 bc :
  concatenation old b = Some v1 ->
  concatenation v1 c = Some v2 ->
  concatenation b c = Some bc ->
  concatenation old bc = Some v2.
Proof.
  destruct old, b; simpl; intros [= <-]; destruct c; simpl;
    intros [= <-] [= <-]; by rewrite <- ?app_assoc, ?string_app_assoc.
Qed.

(** Appending twice is appending the concatenation once: two append
    calls on a registered name leave the registry that one append call
    with the two new defaults joined leaves, whatever the other
    arguments of the three calls. *)
Theorem register_setting_append_twice name (reg : gmap string Setting) d
    b c v1 v2 bc
    label1 editable1 description1 choices1 translatable1
    label2 editable2 description2 choices2 translatable2
    label3 editable3 description3 choices3 translatable3 :
  reg !! name = Some d ->
  concatenation (setting_default d) b = Some v1 ->
  concatenation v1 c = Some v2 ->
  concatenation b c = Some bc ->
  snd (register_setting py django_settings (Some name) label2 editable2
         description2 c choices2 true translatable2
         (snd (register_setting py django_settings (Some name) label1 editable1
                 description1 b choices1 true translatable1 reg)))
  = snd (register_setting py django_settings (Some name) label3 editable3
           description3 bc choices3 true translatable3 reg).
Proof.
  intros Hreg H1 H2 H3.
  pose proof (concatenation_assoc _ _ _ _ _ _ H1 H2 H3) as H4.
  destruct (concatenation_iadd py _ _ _ H1) as [Hn1 Ha1].
  destruct (concatenation_iadd py _ _ _ H2) as [Hn2 Ha2].
  destruct (concatenation_iadd py _ _ _ H4) as [Hn4 Ha4].
  rewrite (register_setting_append_path py django_settings name label1
             editable1 description1 b choices1 translatable1 reg d Hreg).
  rewrite (register_setting_append_path py django_settings name label3
             editable3 description3 bc choices3 translatable3 reg d Hreg).
  rewrite Hn1, Hn4, !andb_false_r, Ha1, Ha4. cbn [snd].
  rewrite (register_setting_append_path py django_settings name label2
             editable2 description2 c choices2 translatable2 _
             (set_default d v1)) by apply lookup_insert_eq.
  rewrite Hn2, andb_false_r. cbn [setting_default set_default].
  rewrite Ha2. cbn [snd]. by rewrite insert_insert_eq.
Qed.

End RegistryFacts.

Lemma register_setting_raise_keeps_registry_witness :
  snd (register_setting sample_runtime sample_django (Some "ITEMS_PER_PAGE")
         VNone true VNone VNone VNone true false sample_registry)
  = sample_registry.
Proof.
  apply (register_setting_raise_keeps_registry sample_runtime sample_django
           (Some "ITEMS_PER_PAGE") VNone true VNone VNone VNone true false
           sample_registry _ TypeError).
  reflexivity.
Defined.

Lemma register_setting_frame_witness :
  let reg := register_sample ∅ "EXTRA" false (VTuple [VStr "a"])
               (register_sample ∅ "MORE" false (VTuple [VStr "a"]) ∅) in
  let reg' := snd (register_setting sample_runtime ∅ (Some "EXTRA") VNone
                     false VNone (VTuple [VStr "b"]) VNone true false reg) in
  (setting_default <$> reg' !! "EXTRA") = Some (VTuple [VStr "a"; VStr "b"])
  /\ reg' !! "MORE" = reg !! "MORE".
Proof.
  intros reg reg'. split; [vm_compute; reflexivity |].
  apply (register_setting_frame sample_runtime ∅ (Some "EXTRA") VNone false
           VNone (VTuple [VStr "b"]) VNone true false reg "MORE").
  - discriminate.
  - vm_compute. reflexivity.
Defined.

Lemma register_setting_keeps_registry_ok_witness :
  registry_ok sample_django
    (register_sample sample_django "SITE_TITLE" true (VStr "Mezzanine") ∅).
Proof.
  apply (register_setting_keeps_registry_ok sample_runtime sample_django
           (Some "SITE_TITLE") VNone true VNone (VStr "Mezzanine") VNone
           false false ∅).
  intros k d. rewrite lookup_empty. discriminate.
Defined.

Lemma register_setting_last_wins_witness :
  snd (register_setting sample_runtime sample_django (Some "PER_PAGE") VNone
         false VNone (VInt 20) VNone false false
         (register_sample sample_django "PER_PAGE" true (VInt 10) ∅))
  = snd (register_setting sample_runtime sample_django (Some "PER_PAGE") VNone
           false VNone (VInt 20) VNone false false ∅).
Proof.
  apply (register_setting_last_wins sample_runtime sample_django "PER_PAGE" ∅
           VNone true VNone (VInt 10) VNone false
           VNone false VNone (VInt 20) VNone false); reflexivity.
Defined.

Lemma register_setting_append_twice_witness :
  let reg := register_sample ∅ "EXTRA" false (VList [VStr "a"]) ∅ in
  snd (register_setting sample_runtime ∅ (Some "EXTRA") VNone false VNone
         (VList [VStr "c"]) VNone true false
         (snd (register_setting sample_runtime ∅ (Some "EXTRA") VNone false
                 VNone (VList [VStr "b"]) VNone true false reg)))
  = snd (register_setting sample_runtime ∅ (Some "EXTRA") VNone false VNone
           (VList [VStr "b"; VStr "c"]) VNone true false reg).
Proof.
  intros reg.
  apply (register_setting_append_twice sample_runtime ∅ "EXTRA" reg
           {| setting_name := "EXTRA"; setting_label := VStr "Extra";
              setting_editable := false; setting_description := VNone;
              setting_default := VList [VStr "a"];
              setting_choices := VNone; setting_type := T_list;
              setting_translatable := false |}
           (VList [VStr "b"]) (VList [VStr "c"])
           (VList [VStr "a"; VStr "b"])
           (VList [VStr "a"; VStr "b"; VStr "c"])
           (VList [VStr "b"; VStr "c"])).
  - subst reg. unfold register_sample. simpl. apply lookup_insert_eq.
  - reflexivity.
  - reflexivity.
  - reflexivity.
Defined.

Lemma sample_registry_ok : registry_ok sample_django sample_registry.
Proof.
  unfold sample_registry, register_sample.
  repeat apply registry_ok_preserved. apply registry_ok_empty.
Qed.

Lemma framework_name_read_is_pure_witness :
  let st := Settings_init [row "SITE_TITLE" "Other"] in
  __getattr__ sample_runtime sample_registry sample_django (Some 1%positive)
    "SITE_TITLE" st = (Ok (VStr "My site"), st).
Proof.
  intros st.
  apply (framework_name_read_is_pure sample_runtime sample_django
           sample_registry (Some 1%positive) "SITE_TITLE" (VStr "My site") st).
  - apply sample_registry_ok.
  - reflexivity.
Defined.

(** The name with its underscores replaced has the length of the name,
    holds no underscore at any position, and is left as it is by a second
    replacement. *)
Theorem replace_underscores_facts (s : string) :
  String.length (replace_underscores s) = String.length s
  /\ (forall i, String.get i (replace_underscores s) <> Some "_"%char)
  /\ replace_underscores (replace_underscores s) = replace_underscores s.
Proof.
  induction s as [| c s (Hlen & Hget & Hidem)]; [done |].
  simpl. split; [by rewrite Hlen | split].
  - intros [| i]; [| apply Hget].
    destruct (Ascii.eqb c "_") eqn:Hc; [done |].
    intros [= ->]. by rewrite Ascii.eqb_refl in Hc.
  - rewrite Hidem. f_equal.
    destruct (Ascii.eqb c "_") eqn:Hc; [done | by rewrite Hc].
Qed.

(** * Further properties of a load and of the resolver *)

Section ResolverFacts.

Context (py : PyRuntime).
Context (registry : gmap string Setting).
Context (django_settings : gmap string value).

(** Where a value of the loop's cache comes from. *)
Lemma load_rows_cache_origin rows : forall acc acc' name v,
  load_rows py registry django_settings acc rows = Ok acc' ->
  new_cache acc' !! name = Some v ->
  new_cache acc !! name = Some v
  \/ exists row d,
       row ∈ rows /\ row_name row = name /\ registry !! name = Some d
       /\ django_settings !! name = None
       /\ convert py d (row_value row) = Ok v.
Proof.
  induction rows as [| r rows IH]; intros acc acc' name v Hloop Hv.
  - injection Hloop as <-. by left.
  - pose proof (load_rows_returns _ _ _ _ _ _ Hloop) as Hall.
    simpl in Hall. apply andb_prop in Hall as [Hrow _].
    destruct (load_row_convertible py registry django_settings acc r Hrow)
      as (acc1 & Hstep & _ & _ & Hcache).
    simpl in Hloop. rewrite Hstep in Hloop. simpl in Hloop.
    destruct (IH acc1 acc' name v Hloop Hv) as [Hold | (row & d & Hin & Hrest)].
    + rewrite Hcache in Hold.
      destruct (registry !! row_name r) as [d|] eqn:Hreg; [| by left].
      destruct (django_settings !! row_name r) as [w|] eqn:Hdj; [by left |].
      destruct (convert py d (row_value r)) as [v'|] eqn:Hconv; [| by left].
      destruct (decide (row_name r = name)) as [Heq | Hne].
      * rewrite Heq, lookup_insert_eq in Hold. injection Hold as ->.
        right. exists r, d. rewrite <- Heq. repeat split; try done. left.
      * rewrite lookup_insert_ne in Hold by done. by left.
    + right. exists row, d. split; [by right | done].
Qed.

(** The loop over the registered rows alone builds the same cache and
    the same conflict list, and marks nothing for removal. *)
Lemma load_rows_registered_only rows : forall acc accF acc1,
  new_cache accF = new_cache acc ->
  conflicting_settings accF = conflicting_settings acc ->
  load_rows py registry django_settings acc rows = Ok acc1 ->
  exists acc2,
    load_rows py registry django_settings accF
      (filter (fun r => is_Some (registry !! row_name r)) rows) = Ok acc2
    /\ new_cache acc2 = new_cache acc1
    /\ conflicting_settings acc2 = conflicting_settings acc1
    /\ removed_settings acc2 = removed_settings accF.
Proof.
  induction rows as [| r rows IH]; intros acc accF acc1 Hcache Hconf Hloop.
  - injection Hloop as <-. by exists accF.
  - pose proof (load_rows_returns _ _ _ _ _ _ Hloop) as Hall.
    simpl in Hall. apply andb_prop in Hall as [Hrow _].
    destruct (load_row_convertible py registry django_settings acc r Hrow)
      as (accA & HstepA & _ & HconfA & HcacheA).
    simpl in Hloop. rewrite HstepA in Hloop. simpl in Hloop.
    rewrite filter_cons.
    destruct (decide (is_Some (registry !! row_name r))) as [[d Hd] | Hnone].
    + destruct (load_row_convertible py registry django_settings accF r Hrow)
        as (accB & HstepB & HremB & HconfB & HcacheB).
      destruct (IH accA accB acc1) as (acc2 & Hloop2 & ? & ? & Hrem2);
        [by rewrite HcacheB, HcacheA, Hcache
        | by rewrite HconfB, HconfA, Hconf | done |].
      exists acc2. simpl. rewrite HstepB. simpl.
      repeat split; try done.
      rewrite Hrem2, HremB, decide_False, app_nil_r; [done | congruence].
    + apply eq_None_not_Some in Hnone.
      apply (IH accA accF acc1); [| | done].
      * rewrite HcacheA, Hnone. done.
      * rewrite HconfA. unfold in_conflict. rewrite Hnone.
        by rewrite app_nil_r.
Qed.

(** [_get_editable] writes under the identity it is called with only. *)
Lemma _get_editable_other req st r :
  r <> req ->
  _editable_caches (snd (_get_editable py registry django_settings req st)) !! r
  = _editable_caches st !! r.
Proof.
  intros Hne. unfold _get_editable.
  destruct (_editable_caches st !! req) as [c|]; [done |].
  pose proof (_load_caches py registry django_settings st) as Hcaches.
  destruct (_load py registry django_settings st) as [[cache|e] st1];
    simpl in *; rewrite Hcaches; [| done].
  by rewrite lookup_insert_ne.
Qed.

(** The state an attribute read leaves is the one [_get_editable]
    leaves, or the one it started from. *)
Lemma getattr_state ambient name st :
  snd (__getattr__ py registry django_settings ambient name st) = st
  \/ snd (__getattr__ py registry django_settings ambient name st)
     = snd (_get_editable py registry django_settings
              (_current_request ambient) st).
Proof.
  unfold __getattr__.
  destruct (registry !! name) as [d|]; [| by left].
  destruct (setting_editable d); [| by left]. simpl. right.
  destruct (_get_editable _ _ _ _ _) as [[cache|e] st1]; [| done].
  by destruct (cache !! name).
Qed.

(** Reads under an identity whose entry is in place leave the state as
    it was, however many there are. *)
Lemma run_cached_reads ambient names : forall st c,
  _editable_caches st !! _current_request ambient = Some c ->
  run py registry django_settings (Access ambient <$> names) st = st.
Proof.
  unfold run. induction names as [| n names IH]; intros st c Hentry; [done |].
  simpl. rewrite (getattr_cached py registry django_settings _ n st c Hentry).
  simpl. by apply (IH st c).
Qed.

(** What a load does to the table: it keeps every row whose name is
    registered and adds none. *)
Lemma _load_rows_kept st row :
  (row ∈ db_rows (snd (_load py registry django_settings st)) -> row ∈ db_rows st)
  /\ (row ∈ db_rows st -> is_Some (registry !! row_name row) ->
      row ∈ db_rows (snd (_load py registry django_settings st))).
Proof.
  destruct (forallb (convertible py registry) (db_rows st)) eqn:Hall.
  - destruct (_load_convertible py registry django_settings st Hall)
      as (acc & st1 & _ & Hload & _ & Hrows & _).
    rewrite Hload. simpl. rewrite Hrows. split.
    + by intros [_ ?]%list_elem_of_filter.
    + intros Hin Hreg. by apply list_elem_of_filter.
  - destruct (load_rows_raises py registry django_settings (db_rows st)
                empty_acc Hall) as (e & Hloop & _).
    unfold _load. simpl. by rewrite Hloop.
Qed.

Lemma run_op_rows_kept o st row :
  own_op o ->
  (row ∈ db_rows (run_op py registry django_settings o st) -> row ∈ db_rows st)
  /\ (row ∈ db_rows st -> is_Some (registry !! row_name row) ->
      row ∈ db_rows (run_op py registry django_settings o st)).
Proof.
  intros Hown. destruct o as [ambient name | ambient | rows]; simpl; [| done | done].
  destruct (getattr_state ambient name st) as [-> | ->]; [done |].
  unfold _get_editable.
  destruct (_editable_caches st !! _current_request ambient); [done |].
  pose proof (_load_rows_kept st row) as Hkept.
  by destruct (_load py registry django_settings st) as [[cache|e] st1].
Qed.

End ResolverFacts.

Section ResolverExtras.

Context (py : PyRuntime).
Context (registry : gmap string Setting).
Context (django_settings : gmap string value).

(** Every value of the cache a completed load returns is the converted
    value of some row of the table whose name is registered and not
    defined by the framework settings: the cache holds nothing made up
    and nothing under a name of another kind. *)
Theorem load_cache_sound st :
  forallb (convertible py registry) (db_rows st) = true ->
  exists cache st',
    _load py registry django_settings st = (Ok cache, st')
    /\ forall name v, cache !! name = Some v ->
         exists row d,
           row ∈ db_rows st /\ row_name row = name
           /\ registry !! name = Some d
           /\ django_settings !! name = None
           /\ convert py d (row_value row) = Ok v.
Proof.
  intros Hall.
  destruct (_load_convertible py registry django_settings st Hall)
    as (acc & st' & Hloop & Hload & _).
  exists (new_cache acc), st'. split; [done |].
  intros name v Hv.
  destruct (load_rows_cache_origin py registry django_settings _ _ _ _ _
              Hloop Hv) as [Hempty | Hrow]; [| done].
  simpl in Hempty. by rewrite lookup_empty in Hempty.
Qed.

(** The database value wins over the default: the first read of an
    editable setting under an identity without an entry returns the
    converted value of the last row carrying the name, provided the
    framework settings do not define the name and the load runs to the
    end; the loaded mapping is then stored under that identity. *)
Theorem fresh_read_uses_row ambient st pre row post d v :
  _editable_caches st !! _current_request ambient = None ->
  registry !! row_name row = Some d ->
  setting_editable d = true ->
  django_settings !! row_name row = None ->
  db_rows st = pre ++ row :: post ->
  row_name row ∉ row_name <$> post ->
  forallb (convertible py registry) (db_rows st) = true ->
  convert py d (row_value row) = Ok v ->
  exists st' cache,
    __getattr__ py registry django_settings ambient (row_name row) st
    = (Ok v, st')
    /\ _editable_caches st' !! _current_request ambient = Some cache
    /\ cache !! row_name row = Some v.
Proof.
  intros Hentry Hreg Hed Hdj Hrows Hlast Hall Hconv.
  destruct (getattr_fresh py registry django_settings ambient _ st d
              Hentry Hreg Hed Hall) as (acc & st1 & Hloop & _ & Hread).
  rewrite Hrows in Hloop.
  pose proof (load_rows_cache_last py registry django_settings _ _ _ _ _ _ _
                Hloop Hlast Hreg Hdj Hconv) as Hv.
  rewrite Hv in Hread. eexists. exists (new_cache acc).
  split; [exact Hread |]. split; [apply lookup_insert_eq | done].
Qed.

(** Without a row of that name in the table, the first read of an
    editable setting under an identity without an entry gives the
    framework value when defined, else the registered default. *)
Theorem fresh_read_without_row ambient name st d :
  _editable_caches st !! _current_request ambient = None ->
  registry !! name = Some d ->
  setting_editable d = true ->
  name ∉ row_name <$> db_rows st ->
  forallb (convertible py registry) (db_rows st) = true ->
  fst (__getattr__ py registry django_settings ambient name st)
  = Ok match django_settings !! name with
       | Some w => w
       | None => setting_default d
       end.
Proof.
  intros Hentry Hreg Hed Habsent Hall.
  destruct (getattr_fresh py registry django_settings ambient name st d
              Hentry Hreg Hed Hall) as (acc & st1 & Hloop & _ & Hread).
  rewrite Hread. simpl.
  rewrite (load_rows_cache_frame py registry django_settings _ _ _ name Hloop).
  - done.
  - intros r d' Hin Heq. exfalso. apply Habsent. rewrite <- Heq.
    by apply list_elem_of_fmap_2.
Qed.


(** A second load right after a completed one: it returns the same
    mapping, finds nothing to delete (its only query is the scan, and
    the table stays as the first load left it), and emits the conflict
    warning of the first load once more. *)
Theorem reload_is_quiet st :
  forallb (convertible py registry) (db_rows st) = true ->
  exists cache st1 st2,
    _load py registry django_settings st = (Ok cache, st1)
    /\ _load py registry django_settings st1 = (Ok cache, st2)
    /\ db_rows st2 = db_rows st1
    /\ db_log st2 = db_log st1 ++ [DbScan]
    /\ warnings st2
       = warnings st1 ++
           match conflicting_names py registry django_settings (db_rows st) with
           | [] => []
           | names => [conflict_warning names]
           end.
Proof.
  intros Hall.
  destruct (_load_convertible py registry django_settings st Hall)
    as (acc & st1 & Hloop & Hload & _ & Hrows & _ & _).
  destruct (load_rows_convertible py registry django_settings _ empty_acc Hall)
    as (acc0 & Hloop0 & _ & Hconf0).
  rewrite Hloop in Hloop0. injection Hloop0 as <-. simpl in Hconf0.
  destruct (load_rows_registered_only py registry django_settings _ empty_acc
              empty_acc acc eq_refl eq_refl Hloop)
    as (acc2 & Hloop2 & Hcache2 & Hconf2 & Hrem2).
  rewrite <- Hrows in Hloop2.
  pose proof (load_rows_returns _ _ _ _ _ _ Hloop2) as Hall1.
  destruct (_load_convertible py registry django_settings st1 Hall1)
    as (acc2' & st2 & Hloop2' & Hload2 & _ & Hrows2 & Hlog2 & Hwarn2).
  rewrite Hloop2 in Hloop2'. injection Hloop2' as <-.
  destruct (load_rows_convertible py registry django_settings _ empty_acc Hall1)
    as (acc3 & Hloop3 & Hrem3 & Hconf3).
  rewrite Hloop2 in Hloop3. injection Hloop3 as <-.
  simpl in Hrem2, Hrem3, Hconf3.
  assert (unregistered_names registry (db_rows st1) = []) as Hnone
    by congruence.
  exists (new_cache acc), st1, st2. split; [done |].
  split; [by rewrite <- Hcache2 |]. split; [| split].
  - rewrite Hrows2, <- delete_unregistered, Hnone. apply filter_not_in_nil.
  - by rewrite Hlog2, Hnone.
  - rewrite Hwarn2. by rewrite <- Hconf3, Hconf2, Hconf0.
Qed.

(** Requests own disjoint slots: neither an attribute read nor a
    [clear_cache] under one identity changes the entry, present or
    absent, of another identity. *)
Theorem other_entries_untouched ambient name st r :
  r <> _current_request ambient ->
  _editable_caches
    (snd (__getattr__ py registry django_settings ambient name st)) !! r
  = _editable_caches st !! r
  /\ _editable_caches (clear_cache ambient st) !! r = _editable_caches st !! r.
Proof.
  intros Hne. split.
  - destruct (getattr_state py registry django_settings ambient name st)
      as [-> | ->]; [done |].
    by apply _get_editable_other.
  - by apply lookup_delete_ne.
Qed.

(** [use_editable] emits the deprecation warning once and, like
    [clear_cache], makes the next editable read under the same identity
    scan the table, the identity of no request included. *)
Theorem use_editable_forces_reload ambient name st d :
  registry !! name = Some d ->
  setting_editable d = true ->
  warnings (use_editable ambient st) = warnings st ++ [deprecation_warning]
  /\ _editable_caches (use_editable ambient st) !! _current_request ambient = None
  /\ exists rest,
       db_log (snd (__getattr__ py registry django_settings ambient name
                      (use_editable ambient st)))
       = db_log st ++ DbScan :: rest.
Proof.
  intros Hreg Hed. split; [done |].
  assert (_editable_caches (use_editable ambient st)
            !! _current_request ambient = None) as Hgone
    by apply lookup_delete_eq.
  split; [done |].
  destruct (_get_editable_miss_scans py registry django_settings _ _ Hgone)
    as [rest Hlog].
  exists rest. unfold __getattr__. rewrite Hreg, Hed. simpl negb. cbv iota.
  destruct (_get_editable _ _ _ _ _) as [[cache|e] st1]; [| done].
  by destruct (cache !! name).
Qed.

(** The settings object adds no row and never deletes a row whose name
    is registered: through every run of its own operations, each row of
    the table afterwards was there before, and each registered row that
    was there before is still there. *)
Theorem registered_rows_survive ops : forall st row,
  Forall own_op ops ->
  (row ∈ db_rows (run py registry django_settings ops st) -> row ∈ db_rows st)
  /\ (row ∈ db_rows st -> is_Some (registry !! row_name row) ->
      row ∈ db_rows (run py registry django_settings ops st)).
Proof.
  unfold run. induction ops as [| o ops IH]; intros st row Hown; [done |].
  inversion Hown as [| ? ? Ho Hrest]; subst. simpl.
  destruct (IH (run_op py registry django_settings o st) row Hrest)
    as [Hsub Hkeep].
  destruct (run_op_rows_kept py registry django_settings o st row Ho)
    as [Hsub1 Hkeep1].
  split; [tauto |]. intros Hin Hreg. apply Hkeep; [by apply Hkeep1 | done].
Qed.

(** One scan per request: after the first editable read under an
    identity without an entry, over a table whose conversions all
    return, any number of further reads under that identity add no
    query; the log holds the one scan, followed by the delete of the
    unregistered rows if there are any. *)
Theorem reads_of_one_request_scan_once ambient name names st d :
  _editable_caches st !! _current_request ambient = None ->
  registry !! name = Some d ->
  setting_editable d = true ->
  forallb (convertible py registry) (db_rows st) = true ->
  db_log (run py registry django_settings
            (Access ambient name :: (Access ambient <$> names)) st)
  = db_log st ++ DbScan ::
      match unregistered_names registry (db_rows st) with
      | [] => []
      | gone => [DbDelete gone]
      end.
Proof.
  intros Hentry Hreg Hed Hall.
  destruct (getattr_fresh py registry django_settings ambient name st d
              Hentry Hreg Hed Hall) as (acc & st1 & _ & Hload & Hread).
  destruct (_load_convertible py registry django_settings st Hall)
    as (acc' & st1' & _ & Hload' & _ & _ & Hlog & _).
  rewrite Hload in Hload'. injection Hload' as _ <-.
  change (run py registry django_settings
            (Access ambient name :: (Access ambient <$> names)) st)
    with (run py registry django_settings (Access ambient <$> names)
            (snd (__getattr__ py registry django_settings ambient name st))).
  rewrite Hread. cbn [snd].
  rewrite (run_cached_reads py registry django_settings ambient names _
             (new_cache acc)) by apply lookup_insert_eq.
  exact Hlog.
Qed.

End ResolverExtras.

(** [clear_cache] removes at most the entry of the current identity:
    run where there is no such entry it changes nothing, run twice it
    does what it does once, and it never touches the table, the query
    log or the warnings. *)
Theorem clear_cache_idempotent ambient st :
  (_editable_caches st !! _current_request ambient = None ->
   clear_cache ambient st = st)
  /\ clear_cache ambient (clear_cache ambient st) = clear_cache ambient st
  /\ db_rows (clear_cache ambient st) = db_rows st
  /\ db_log (clear_cache ambient st) = db_log st
  /\ warnings (clear_cache ambient st) = warnings st.
Proof.
  split; [| split; [| done]].
  - intros Hnone. destruct st as [caches rows log ws]. unfold clear_cache.
    simpl in *. unfold set_caches. simpl. by rewrite delete_id.
  - unfold clear_cache, set_caches. simpl. by rewrite delete_delete_eq.
Qed.

Lemma load_cache_sound_witness :
  let st := Settings_init [row "ITEMS_PER_PAGE" "25"; row "SITE_TITLE" "x"] in
  exists cache st',
    _load sample_runtime sample_registry sample_django st = (Ok cache, st')
    /\ cache !! "SITE_TITLE" = None.
Proof.
  intros st.
  destruct (load_cache_sound sample_runtime sample_registry sample_django st)
    as (cache & st' & Hload & Hsound).
  - vm_compute. reflexivity.
  - exists cache, st'. split; [exact Hload |].
    destruct (cache !! "SITE_TITLE") as [v|] eqn:Hv; [| reflexivity].
    destruct (Hsound "SITE_TITLE" v Hv) as (r & d & _ & _ & _ & Hdj & _).
    vm_compute in Hdj. discriminate.
Defined.

Lemma fresh_read_uses_row_witness :
  let st := Settings_init [row "ITEMS_PER_PAGE" "25"] in
  exists st' cache,
    __getattr__ sample_runtime sample_registry sample_django (Some 1%positive)
      "ITEMS_PER_PAGE" st = (Ok (VInt 25), st')
    /\ _editable_caches st' !! Request 1 = Some cache
    /\ cache !! "ITEMS_PER_PAGE" = Some (VInt 25).
Proof.
  intros st.
  apply (fresh_read_uses_row sample_runtime sample_registry sample_django
           (Some 1%positive) st [] (row "ITEMS_PER_PAGE" "25") []
           sample_items_per_page (VInt 25)).
  - vm_compute. reflexivity.
  - vm_compute. reflexivity.
  - reflexivity.
  - vm_compute. reflexivity.
  - reflexivity.
  - apply not_elem_of_nil.
  - vm_compute. reflexivity.
  - reflexivity.
Defined.

Lemma fresh_read_without_row_witness :
  fst (__getattr__ sample_runtime sample_registry sample_django
         (Some 1%positive) "ITEMS_PER_PAGE" (Settings_init [row "GONE" "x"]))
  = Ok (VInt 10).
Proof.
  apply (fresh_read_without_row sample_runtime sample_registry sample_django
           (Some 1%positive) "ITEMS_PER_PAGE" (Settings_init [row "GONE" "x"])
           sample_items_per_page).
  - vm_compute. reflexivity.
  - vm_compute. reflexivity.
  - reflexivity.
  - simpl. intros [Heq | Hin]%elem_of_cons; [discriminate |].
    by apply not_elem_of_nil in Hin.
  - vm_compute. reflexivity.
Defined.


Lemma reload_is_quiet_witness :
  let st := Settings_init [row "GONE" "x"; row "SITE_TITLE" "Other"] in
  exists cache st1 st2,
    _load sample_runtime sample_registry sample_django st = (Ok cache, st1)
    /\ _load sample_runtime sample_registry sample_django st1 = (Ok cache, st2)
    /\ db_rows st2 = db_rows st1
    /\ db_log st2 = db_log st1 ++ [DbScan].
Proof.
  intros st.
  destruct (reload_is_quiet sample_runtime sample_registry sample_django st)
    as (cache & st1 & st2 & H1 & H2 & Hrows & Hlog & _).
  - vm_compute. reflexivity.
  - exists cache, st1, st2. repeat split; assumption.
Defined.

Lemma other_entries_untouched_witness :
  let st := Settings_init [row "ITEMS_PER_PAGE" "25"] in
  _editable_caches
    (snd (__getattr__ sample_runtime sample_registry sample_django
            (Some 1%positive) "ITEMS_PER_PAGE" st)) !! NULL_REQUEST
  = _editable_caches st !! NULL_REQUEST.
Proof.
  intros st.
  apply (other_entries_untouched sample_runtime sample_registry sample_django
           (Some 1%positive) "ITEMS_PER_PAGE" st NULL_REQUEST).
  discriminate.
Defined.

Lemma use_editable_forces_reload_witness :
  let st := Settings_init [row "ITEMS_PER_PAGE" "25"] in
  warnings (use_editable None st) = [deprecation_warning]
  /\ exists rest,
       db_log (snd (__getattr__ sample_runtime sample_registry sample_django
                      None "ITEMS_PER_PAGE" (use_editable None st)))
       = DbScan :: rest.
Proof.
  intros st.
  destruct (use_editable_forces_reload sample_runtime sample_registry
              sample_django None "ITEMS_PER_PAGE" st sample_items_per_page)
    as (Hwarn & _ & Hscan).
  - vm_compute. reflexivity.
  - reflexivity.
  - split; [exact Hwarn | exact Hscan].
Defined.

Lemma registered_rows_survive_witness :
  let st := Settings_init [row "GONE" "x"; row "ITEMS_PER_PAGE" "25"] in
  row "ITEMS_PER_PAGE" "25"
  ∈ db_rows (run sample_runtime sample_registry sample_django
               [Access (Some 1%positive) "ITEMS_PER_PAGE";
                ClearCache (Some 1%positive);
                Access None "SITE_TITLE"] st).
Proof.
  intros st.
  apply (registered_rows_survive sample_runtime sample_registry sample_django
           [Access (Some 1%positive) "ITEMS_PER_PAGE";
            ClearCache (Some 1%positive);
            Access None "SITE_TITLE"] st (row "ITEMS_PER_PAGE" "25")).
  - repeat constructor.
  - right. left.
  - vm_compute. eauto.
Defined.

Lemma reads_of_one_request_scan_once_witness :
  let st := Settings_init [row "GONE" "x"; row "ITEMS_PER_PAGE" "25"] in
  db_log (run sample_runtime sample_registry sample_django
            (Access (Some 1%positive) "ITEMS_PER_PAGE"
             :: (Access (Some 1%positive)
                   <$> ["SITE_TITLE"; "ITEMS_PER_PAGE"; "NO_SUCH_SETTING"])) st)
  = [DbScan; DbDelete ["GONE"]].
Proof.
  intros st.
  apply (reads_of_one_request_scan_once sample_runtime sample_registry
           sample_django (Some 1%positive) "ITEMS_PER_PAGE"
           ["SITE_TITLE"; "ITEMS_PER_PAGE"; "NO_SUCH_SETTING"] st
           sample_items_per_page).
  - vm_compute. reflexivity.
  - vm_compute. reflexivity.
  - reflexivity.
  - vm_compute. reflexivity.
Defined.

Lemma clear_cache_idempotent_witness :
  let st := Settings_init [] in
  clear_cache (Some 1%positive) st = st.
Proof.
  intros st.
  destruct (clear_cache_idempotent (Some 1%positive) st) as [Hnoop _].
  apply Hnoop. vm_compute. reflexivity.
Defined.

(** * Properties of the discovery of [defaults] modules *)

Lemma insert_by_key_false {A} (key : A -> bool) x l :
  key x = false -> insert_by_key key x l = x :: l.
Proof. intros Hx. destruct l; simpl; [done | by rewrite Hx]. Qed.

Lemma insert_by_key_true {A} (key : A -> bool) x front back :
  key x = true ->
  List.forallb (fun a => negb (key a)) front = true ->
  List.forallb key back = true ->
  insert_by_key key x (front ++ back) = front ++ x :: back.
Proof.
  intros Hx Hfront Hback. induction front as [| a front IH]; simpl.
  - destruct back as [| b back]; simpl; [done |].
    simpl in Hback. apply andb_prop in Hback as [-> _]. by rewrite Hx.
  - simpl in Hfront. apply andb_prop in Hfront as [Ha Hfront].
    apply negb_true_iff in Ha. rewrite Hx, Ha. simpl. by rewrite IH.
Qed.

Lemma forallb_filter_self {A} (f : A -> bool) l :
  List.forallb f (List.filter f l) = true.
Proof.
  induction l as [| a l IH]; simpl; [done |].
  destruct (f a) eqn:Ha; simpl; [by rewrite Ha |done].
Qed.

(** A stable sort on a boolean key puts the elements of key [False]
    first and keeps the listed order inside each group. *)
Lemma sorted_by_key_partition {A} (key : A -> bool) l :
  sorted_by_key key l
  = List.filter (fun a => negb (key a)) l ++ List.filter key l.
Proof.
  induction l as [| x l IH]; simpl; [done |].
  rewrite IH. destruct (key x) eqn:Hx; simpl.
  - apply insert_by_key_true; [done | | apply forallb_filter_self].
    apply (forallb_filter_self (fun a => negb (key a))).
  - by apply insert_by_key_false.
Qed.

Section DiscoveryFacts.

Context {World : Type}.
Context (import_module : string -> World -> outcome unit * World).
Context (module_has_submodule : string -> bool).

(** The loop imports the applications whose name starts with
    ["mezzanine."] first and the others after them, each group in the
    order of [INSTALLED_APPS]. *)
Theorem discover_mezzanine_first (INSTALLED_APPS : list string) (w : World) :
  sorted_by_key mezz_first INSTALLED_APPS
  = List.filter (String.prefix "mezzanine.") INSTALLED_APPS
    ++ List.filter mezz_first INSTALLED_APPS
  /\ discover import_module module_has_submodule INSTALLED_APPS w
     = discover_apps import_module module_has_submodule
         (List.filter (String.prefix "mezzanine.") INSTALLED_APPS
          ++ List.filter mezz_first INSTALLED_APPS) w.
Proof.
  assert (sorted_by_key mezz_first INSTALLED_APPS
          = List.filter (String.prefix "mezzanine.") INSTALLED_APPS
            ++ List.filter mezz_first INSTALLED_APPS) as Hsorted.
  { rewrite sorted_by_key_partition. f_equal.
    apply List.filter_ext. intros a. unfold mezz_first.
    apply negb_involutive. }
  split; [exact Hsorted |]. unfold discover. by rewrite Hsorted.
Qed.

(** When one application makes the loop raise: its own import raised
    something other than an [ImportError], or its [defaults] module
    exists and importing it raised.  A missing application and a missing
    [defaults] module never do. *)
Theorem discover_app_raises_iff app w e w' :
  discover_app import_module module_has_submodule app w = (Raise e, w')
  <-> (import_module app w = (Raise e, w')
       /\ caught_by_ImportError e = false)
      \/ (exists w1,
            import_module app w = (Ok tt, w1)
            /\ import_module (app +:+ ".defaults") w1 = (Raise e, w')
            /\ module_has_submodule app = true).
Proof.
  unfold discover_app. split.
  - destruct (import_module app w) as [[[]|e1] w1] eqn:Himp.
    + destruct (import_module (app +:+ ".defaults") w1) as [[[]|e2] w2] eqn:Hdef;
        [done |].
      destruct (module_has_submodule app) eqn:Hsub; [| done].
      intros [= -> ->]. right. exists w1. by rewrite Hdef.
    + destruct (caught_by_ImportError e1) eqn:Hc; [done |].
      intros [= -> ->]. by left.
  - intros [[-> ->] | (w1 & -> & -> & ->)]; done.
Qed.

(** The first application that raises ends the loop: the exception is
    passed on and no later application is imported. *)
Theorem discover_apps_stops_at_failure pre app post w w1 e w2 :
  discover_apps import_module module_has_submodule pre w = (Ok tt, w1) ->
  discover_app import_module module_has_submodule app w1 = (Raise e, w2) ->
  discover_apps import_module module_has_submodule (pre ++ app :: post) w
  = (Raise e, w2).
Proof.
  revert w. induction pre as [| a pre IH]; intros w Hpre Happ; simpl in *.
  - injection Hpre as ->. by rewrite Happ.
  - destruct (discover_app import_module module_has_submodule a w)
      as [[[]|e1] wa]; [| done].
    by apply IH.
Qed.

End DiscoveryFacts.

(** The discovery loop on the sample importer: the listed order puts
    [shop] before [mezzanine.core], the loop imports [mezzanine.core]
    first; a missing application and a missing [defaults] are passed
    over. *)
Example discover_sample :
  discover sample_import sample_has_defaults
    ["shop"; "absent"; "blog"; "mezzanine.core"] []
  = (Ok tt, ["mezzanine.core"; "mezzanine.core.defaults";
             "shop"; "shop.defaults"; "blog"]).
Proof. vm_compute. reflexivity. Qed.

Lemma discover_apps_stops_at_failure_witness :
  discover_apps sample_import sample_has_defaults
    (["mezzanine.core"] ++ "broken" :: ["shop"]) []
  = (Raise TypeError, ["mezzanine.core"; "mezzanine.core.defaults"; "broken"]).
Proof.
  apply (discover_apps_stops_at_failure sample_import sample_has_defaults
           ["mezzanine.core"] "broken" ["shop"] []
           ["mezzanine.core"; "mezzanine.core.defaults"]).
  - vm_compute. reflexivity.
  - vm_compute. reflexivity.
Defined.
